(** * VISTA campus-tour assistant: the three call-and-parse workflows

    A shallow embedding of [travel_planner.py], [route_planner.py] and
    [image_recognition_workflow.py], and the properties of their
    response parsing.

    Conventions of the embedding.
    - A Python [str] is a [string]; each character stands for one code
      point (code points below 256 are covered).
    - A decoded JSON document is a [json] value.  Numbers are the
      integers ([int], unbounded, so [Z]); [float] members do not occur
      in the fields the programs read and are left out of the value type.
    - A Python exception is an [exc]; a function that may raise and may
      print returns [M A], the printed lines and service calls made so
      far paired with either the value or the exception raised.
    - The services and libraries outside the repository (the JSON
      decoder, the HTTP client, the mapping client, the image library)
      are parameters of the sections that use them. *)

From Stdlib Require Import String Ascii List ZArith Bool Lia.
From Stdlib Require Import DecimalString SpecFloat.
Import ListNotations.

Open Scope string_scope.
Open Scope Z_scope.

(* ================================================================== *)
(** * The Python values and exceptions the programs handle *)

Module Py.

#[local] Unset Elimination Schemes.

Inductive json : Type :=
| JNull
| JBool (b : bool)
| JInt (z : Z)
| JStr (s : string)
| JArr (items : list json)
| JObj (members : list (string * json)).

(** A [dict] with [str] keys: an association list read by first match. *)
Definition dict := list (string * json).

Fixpoint lookup (k : string) (d : dict) : option json :=
  match d with
  | [] => None
  | (k', v) :: d' => if String.eqb k k' then Some v else lookup k d'
  end.

(** [k in d] *)
Definition mem (k : string) (d : dict) : bool :=
  match lookup k d with Some _ => true | None => false end.

(** Exceptions.  An [Exception] built by the programs with an f-string
    [f"<text>{str(e)}"] keeps the text and the exception [e] it quotes;
    one built from a plain literal has no cause. *)
Inductive exc : Type :=
| Exception (text : string) (cause : option exc)
| KeyError (key : json)
| IndexError
| TypeError
| AttributeError
| OverflowError
| ZeroDivisionError
| JSONDecodeError
| RequestException (text : string)
| OSError (text : string).

(** [str(e)], where the source text fixes it: the message of an
    [Exception], and the quoted key of a [KeyError] on a plain key. *)
#[local] Set Elimination Schemes.


Inductive result (A : Type) : Type :=
| Ok (a : A)
| Raise (e : exc).
Arguments Ok {A} a.
Arguments Raise {A} e.

(** [r] then [k] on its value; an exception passes through. *)
Definition and_then {A B} (r : result A) (k : A -> result B) : result B :=
  match r with
  | Ok a => k a
  | Raise e => Raise e
  end.

(** The pieces of one printed line, in order: literal text, the [str()]
    of a list of strings, [json.dumps(v, indent=2)], [str(e)]. *)
Inductive printed : Type :=
| PStr (s : string)
| PList (l : list string)
| PDumps (j : json)
| PExc (e : exc).

(** The observable actions: a printed line, a directions request to the
    mapping service, a POST to the generation service. *)
Inductive event : Type :=
| Print (args : list printed)
| Directions (origin destination : string) (waypoints : list string)
             (optimize_waypoints : bool) (mode units : string)
| Post (endpoint : string) (image_base64 prompt : string).

Definition M (A : Type) : Type := (list event * result A)%type.

Definition ret {A} (a : A) : M A := ([], Ok a).
Definition raise {A} (e : exc) : M A := ([], Raise e).
Definition emit (ev : event) : M unit := ([ev], Ok tt).
Definition print (args : list printed) : M unit := emit (Print args).

Definition bind {A B} (m : M A) (k : A -> M B) : M B :=
  match m with
  | (t, Ok a) => let (t', r) := k a in ((t ++ t')%list, r)
  | (t, Raise e) => (t, Raise e)
  end.

(** [try: m  except Exception as e: h e] *)
Definition try_except {A} (m : M A) (h : exc -> M A) : M A :=
  match m with
  | (t, Raise e) => let (t', r) := h e in ((t ++ t')%list, r)
  | (t, Ok a) => (t, Ok a)
  end.

Definition lift {A} (r : result A) : M A := ([], r).

Definition trace {A} (m : M A) : list event := fst m.
Definition outcome {A} (m : M A) : result A := snd m.

(** ** Truth value, [dict.get], subscripts, iteration *)

(** [d.get(k, default)] on a dict. *)
Definition dict_get (d : dict) (k : string) (default : json) : json :=
  match lookup k d with Some x => x | None => default end.

(** [bool(v)] *)
Definition truthy (v : json) : bool :=
  match v with
  | JNull => false
  | JBool b => b
  | JInt z => negb (z =? 0)
  | JStr s => negb (String.eqb s "")
  | JArr l => match l with [] => false | _ => true end
  | JObj d => match d with [] => false | _ => true end
  end.

(** [v.get(k, default)]: only a dict has the method. *)
Definition py_get (v : json) (k : string) (default : json) : result json :=
  match v with
  | JObj d => Ok (match lookup k d with Some x => x | None => default end)
  | _ => Raise AttributeError
  end.

(** [v[k]] with a [str] key. *)
Definition getitem (v : json) (k : string) : result json :=
  match v with
  | JObj d => match lookup k d with Some x => Ok x | None => Raise (KeyError (JStr k)) end
  | _ => Raise TypeError
  end.

(** [l[i]] on a list, negative [i] counting from the end. *)
Definition list_index {A} (l : list A) (i : Z) : option A :=
  let n := Z.of_nat (length l) in
  let j := if i <? 0 then i + n else i in
  if (0 <=? j) && (j <? n) then nth_error l (Z.to_nat j) else None.

(** [l[a:b]] on a list. *)
Definition list_slice {A} (l : list A) (a b : Z) : list A :=
  let n := Z.of_nat (length l) in
  let norm i := if i <? 0 then Z.max (i + n) 0 else Z.min i n in
  firstn (Z.to_nat (norm b - norm a)) (skipn (Z.to_nat (norm a)) l).

Definition chars (s : string) : list string :=
  map (fun c => String c "") (list_ascii_of_string s).

(** [v[i]] with an [int] index. *)
Definition getitem_int (v : json) (i : Z) : result json :=
  match v with
  | JArr l => match list_index l i with Some x => Ok x | None => Raise IndexError end
  | JStr s => match list_index (chars s) i with Some c => Ok (JStr c) | None => Raise IndexError end
  | JObj _ => Raise (KeyError (JInt i))
  | _ => Raise TypeError
  end.

(** [for x in v]: the elements visited. *)
Definition iter (v : json) : result (list json) :=
  match v with
  | JArr l => Ok l
  | JObj d => Ok (map (fun kv => JStr (fst kv)) d)
  | JStr s => Ok (map JStr (chars s))
  | _ => Raise TypeError
  end.

(** An operand of [+] with an [int]: [bool] is a subclass of [int]. *)
Definition as_int (v : json) : result Z :=
  match v with
  | JInt z => Ok z
  | JBool b => Ok (if b then 1 else 0)
  | _ => Raise TypeError
  end.

(** ** Strings *)

(** [str(n)] for an [int]. *)
Definition str_int (n : Z) : string := NilZero.string_of_int (Z.to_int n).

(** [s.startswith(old)] *)
Fixpoint starts_with (old s : string) : bool :=
  match old with
  | "" => true
  | String a old' =>
      match s with
      | String b s' => Ascii.eqb a b && starts_with old' s'
      | "" => false
      end
  end.

(** [s.replace(old, new)]: every occurrence, left to right, without
    overlap.  [skip] counts the characters of a match still to pass. *)
Fixpoint replace_from (old new : string) (skip : nat) (s : string) : string :=
  match s with
  | "" => ""
  | String c s' =>
      match skip with
      | S k => replace_from old new k s'
      | O =>
          if starts_with old s
          then new ++ replace_from old new (String.length old - 1)%nat s'
          else String c (replace_from old new 0 s')
      end
  end.

Fixpoint insert_each (new s : string) : string :=
  new ++ match s with
         | "" => ""
         | String c s' => String c (insert_each new s')
         end.

Definition replace (old new s : string) : string :=
  match old with
  | "" => insert_each new s
  | _ => replace_from old new 0 s
  end.

(** [c.isspace()] for a code point below 256. *)
Definition isspace (c : ascii) : bool :=
  let n := nat_of_ascii c in
  ((9 <=? n) && (n <=? 13) || (28 <=? n) && (n <=? 32) || (n =? 133) || (n =? 160))%nat.

Fixpoint lstrip (s : string) : string :=
  match s with
  | "" => ""
  | String c s' => if isspace c then lstrip s' else s
  end.

Fixpoint rstrip (s : string) : string :=
  match s with
  | "" => ""
  | String c s' =>
      match rstrip s' with
      | "" => if isspace c then "" else String c ""
      | r => String c r
      end
  end.

(** [s.strip()] *)
Definition strip (s : string) : string := rstrip (lstrip s).

(** [sep.join(items)]: every item has to be a [str]. *)
Fixpoint all_str (items : list json) : result (list string) :=
  match items with
  | [] => Ok []
  | JStr s :: rest =>
      match all_str rest with Ok l => Ok (s :: l) | Raise e => Raise e end
  | _ :: _ => Raise TypeError
  end.

Definition join (sep : string) (items : list json) : result string :=
  match all_str items with
  | Ok l => Ok (String.concat sep l)
  | Raise e => Raise e
  end.

(** ** [re.search(r'\[.*\]', s, re.DOTALL)]

    The leftmost match starts at the first ['[']; the greedy [.*] (which
    under DOTALL also crosses line ends) then runs to the last [']'] of
    the text.  When no [']'] follows the first ['['], none follows a later
    one either, and there is no match. *)

Fixpoint after_first_open (s : string) : option string :=
  match s with
  | "" => None
  | String c s' => if Ascii.eqb c "[" then Some s' else after_first_open s'
  end.

Fixpoint upto_last_close (s : string) : option string :=
  match s with
  | "" => None
  | String c s' =>
      match upto_last_close s' with
      | Some r => Some (String c r)
      | None => if Ascii.eqb c "]" then Some (String c "") else None
      end
  end.

Definition search_bracketed (s : string) : option string :=
  match after_first_open s with
  | None => None
  | Some rest =>
      match upto_last_close rest with
      | Some r => Some (String "[" r)
      | None => None
      end
  end.

(** ** [int / int] and the [.2f] format

    [a / b] on two [int]s is the binary64 number nearest to the exact
    quotient (ties to even): [SFdiv] at precision 53 works on the exact
    mantissas.  A quotient beyond the largest finite number raises. *)

Definition float_of_int (n : Z) : spec_float :=
  match n with
  | Z0 => S754_zero false
  | Zpos p => S754_finite false p 0
  | Zneg p => S754_finite true p 0
  end.

Definition truediv (a b : Z) : result spec_float :=
  if b =? 0 then Raise ZeroDivisionError
  else
    match SFdiv 53 1024 (float_of_int a) (float_of_int b) with
    | S754_infinity _ => Raise OverflowError
    | q => Ok q
    end.

(** The integer nearest to [100 * m * 2^e], ties to even. *)
Definition hundredths (m : positive) (e : Z) : Z :=
  let num := 100 * Zpos m in
  match e with
  | Zneg p =>
      let den := Z.pow_pos 2 p in
      let q := num / den in
      let r := num mod den in
      match 2 * r ?= den with
      | Lt => q
      | Gt => q + 1
      | Eq => if Z.even q then q else q + 1
      end
  | _ => num * 2 ^ e
  end.

Definition digit (d : Z) : string :=
  String (ascii_of_nat (48 + Z.to_nat d)) "".

(** Two decimal places from a count of hundredths. *)
Definition fixed2 (neg : bool) (h : Z) : string :=
  (if neg then "-" else "") ++ str_int (h / 100) ++ "."
    ++ digit (h / 10 mod 10) ++ digit (h mod 10).

(** [f"{x:.2f}"] for a [float]: the exact binary value rounded to two
    decimals, ties to even. *)
Definition format_2f (x : spec_float) : string :=
  match x with
  | S754_zero s => fixed2 s 0
  | S754_finite s m e => fixed2 s (hundredths m e)
  | S754_infinity s => if s then "-inf" else "inf"
  | S754_nan => "nan"
  end.

End Py.

Export Py.

Declare Scope py_scope.
Delimit Scope py_scope with py.
Notation "x <- m ;; k" := (bind m (fun x => k))
  (at level 61, m at next level, right associativity) : py_scope.
Notation "m ;;; k" := (bind m (fun _ => k))
  (at level 61, right associativity) : py_scope.
Notation "x <~ r ;; k" := (and_then r (fun x => k))
  (at level 61, r at next level, right associativity) : py_scope.
Open Scope py_scope.


(* ================================================================== *)
(** * travel_planner.py *)

Module TravelPlanner.

(** The dataclass; its fields take whatever the decoded element holds. *)
Record TravelDestination : Type := {
  name : json;
  description : json;
  recommended_duration : json;
  best_time_to_visit : json;
  highlights : json
}.

Section Workflow.

(** [json.loads] on a [str]: [None] when it raises [JSONDecodeError]. *)
Variable json_loads : string -> option json.

(** The content of the response: the branch is chosen by the first key
    present among ["output"], ["response"], ["choices"]. *)
Definition select_content (api_response : dict) : result json :=
  if mem "output" api_response then
    py_get (dict_get api_response "output" (JObj [])) "text" (JStr "")
  else if mem "response" api_response then
    Ok (dict_get api_response "response" (JStr ""))
  else if mem "choices" api_response then
    let choices := dict_get api_response "choices" (JArr []) in
    if truthy choices then
      c <~ getitem_int choices 0 ;;
      py_get c "text" (JStr "")
    else Ok JNull
  else Ok JNull.

(** [json.loads(content)], and on [JSONDecodeError] the bracketed part
    found by the regular expression. *)
Definition parse_content (content : json) : result json :=
  match content with
  | JStr s =>
      match json_loads s with
      | Some v => Ok v
      | None =>
          match search_bracketed s with
          | Some m =>
              match json_loads m with
              | Some v => Ok v
              | None => Raise JSONDecodeError
              end
          | None => Raise (Exception "Could not extract JSON from response" None)
          end
      end
  | _ => Raise TypeError
  end.

Definition destination_of (data : json) : result TravelDestination :=
  n <~ getitem data "name" ;;
  d <~ getitem data "description" ;;
  r <~ getitem data "recommended_duration" ;;
  b <~ getitem data "best_time_to_visit" ;;
  h <~ getitem data "highlights" ;;
  Ok {| name := n; description := d; recommended_duration := r;
        best_time_to_visit := b; highlights := h |}.

Fixpoint convert (items : list json) : result (list TravelDestination) :=
  match items with
  | [] => Ok []
  | data :: rest =>
      destination <~ destination_of data ;;
      destinations <~ convert rest ;;
      Ok (destination :: destinations)
  end.

Definition extract_body (api_response : dict) : result (list TravelDestination) :=
  content <~ select_content api_response ;;
  if negb (truthy content)
  then Raise (Exception "No content found in API response" None)
  else
    destinations_data <~ parse_content content ;;
    items <~ iter destinations_data ;;
    convert items.

Definition extract_destinations (api_response : dict) : M (list TravelDestination) :=
  try_except
    (print [PStr "Extracting from response: "; PDumps (JObj api_response)] ;;;
     lift (extract_body api_response))
    (fun e =>
       print [PStr "Error processing API response: "; PExc e] ;;;
       print [PStr "Raw API response: "; PDumps (JObj api_response)] ;;;
       raise (Exception "Failed to extract destinations from response: " (Some e))).

End Workflow.

End TravelPlanner.

(* ================================================================== *)
(** * route_planner.py *)

Module RoutePlanner.

Record RouteInfo : Type := {
  start_location : json;
  end_location : json;
  distance : string;
  duration : string;
  steps : list string
}.

(** The dict [plan_route] returns. *)
Record RouteResult : Type := {
  route_info : RouteInfo;
  maps_url : string;
  raw_data : json
}.

Definition dquote : string := String "034"%char "".

Definition div_open : string :=
  "<div style=" ++ dquote ++ "font-size:0.9em" ++ dquote ++ ">".

(** The four [replace] calls on one instruction. *)
Definition clean_instruction (instruction : string) : string :=
  let instruction := replace "</b>" "" (replace "<b>" "" instruction) in
  let instruction := replace div_open " - " instruction in
  replace "</div>" "" instruction.

(** [sum(leg[field]['value'] for leg in legs)], from the running total. *)
Fixpoint sum_values (field : string) (legs : list json) (acc : Z) : result Z :=
  match legs with
  | [] => Ok acc
  | leg :: rest =>
      d <~ getitem leg field ;;
      v <~ getitem d "value" ;;
      z <~ as_int v ;;
      sum_values field rest (acc + z)
  end.

Definition format_distance (total_distance : Z) : result string :=
  if 1000 <=? total_distance
  then q <~ truediv total_distance 1000 ;; Ok (format_2f q ++ " km")
  else Ok (str_int total_distance ++ " m").

Definition format_duration (total_duration : Z) : string :=
  str_int (total_duration / 60) ++ " min " ++ str_int (total_duration mod 60) ++ " sec".

(** The inner loop: the steps of one leg. *)
Fixpoint leg_steps (steps : list json) : result (list string) :=
  match steps with
  | [] => Ok []
  | step :: rest =>
      i <~ getitem step "html_instructions" ;;
      match i with
      | JStr instruction =>
          more <~ leg_steps rest ;;
          Ok (clean_instruction instruction :: more)
      | _ => Raise AttributeError
      end
  end.

(** The outer loop over the legs. *)
Fixpoint route_steps (legs : list json) : result (list string) :=
  match legs with
  | [] => Ok []
  | leg :: rest =>
      s <~ getitem leg "steps" ;;
      l <~ iter s ;;
      here <~ leg_steps l ;;
      more <~ route_steps rest ;;
      Ok (here ++ more)%list
  end.

Definition parse_body (route_data : json) : result RouteInfo :=
  legs <~ getitem route_data "legs" ;;
  leg_list <~ iter legs ;;
  total_distance <~ sum_values "distance" leg_list 0 ;;
  total_duration <~ sum_values "duration" leg_list 0 ;;
  distance_str <~ format_distance total_distance ;;
  let duration_str := format_duration total_duration in
  all_steps <~ route_steps leg_list ;;
  first <~ getitem_int legs 0 ;;
  start <~ getitem first "start_address" ;;
  last <~ getitem_int legs (-1) ;;
  finish <~ getitem last "end_address" ;;
  Ok {| start_location := start; end_location := finish;
        distance := distance_str; duration := duration_str;
        steps := all_steps |}.

Definition parse_route_info (route_data : json) : M RouteInfo :=
  try_except (lift (parse_body route_data))
    (fun e => print [PStr "Error parsing route info: "; PExc e] ;;; raise e).

Definition encode_location (location : string) : string :=
  replace "," "%2C" (replace " " "+" location).

Definition get_route_url (locations : list string) : string :=
  "https://www.google.com/maps/dir/"
    ++ String.concat "/" (map encode_location locations).

Definition index_str (l : list string) (i : Z) : result string :=
  match list_index l i with
  | Some x => Ok x
  | None => Raise IndexError
  end.

Section Planner.

(** [gmaps.directions(origin, destination, waypoints, optimize_waypoints,
    mode, units)]: the decoded list of routes, or what the client raises. *)
Variable directions :
  string -> string -> list string -> bool -> string -> string -> result json.

Definition calculate_route (locations : list string) (optimize_waypoints : bool)
  : M json :=
  try_except
    ((if Z.of_nat (length locations) <? 2
      then raise (Exception "Need at least 2 locations to calculate a route" None)
      else ret tt) ;;;
     origin <- lift (index_str locations 0) ;;
     destination <- lift (index_str locations (-1)) ;;
     let waypoints :=
       if 2 <? Z.of_nat (length locations)
       then list_slice locations 1 (-1) else [] in
     print [PStr ("Calculating route from " ++ origin ++ " to " ++ destination)] ;;;
     (match waypoints with
      | [] => ret tt
      | _ => print [PStr "Through waypoints: "; PList waypoints]
      end) ;;;
     emit (Directions origin destination waypoints optimize_waypoints
             "walking" "metric") ;;;
     directions_result <-
       lift (directions origin destination waypoints optimize_waypoints
               "walking" "metric") ;;
     (if negb (truthy directions_result)
      then raise (Exception "No route found" None)
      else ret tt) ;;;
     lift (getitem_int directions_result 0))
    (fun e => print [PStr "Route calculation error: "; PExc e] ;;; raise e).

Definition plan_route (locations : list string) : M RouteResult :=
  try_except
    (print [PStr ("Planning route for "
                    ++ str_int (Z.of_nat (length locations)) ++ " locations...")] ;;;
     route_data <- calculate_route locations true ;;
     info <- parse_route_info route_data ;;
     let url := get_route_url locations in
     ret {| route_info := info; maps_url := url; raw_data := route_data |})
    (fun e => print [PStr "Route planning failed: "; PExc e] ;;; raise e).

End Planner.

End RoutePlanner.

(* ================================================================== *)
(** * image_recognition_workflow.py *)

Module ImageRecognition.

(** [text_contents] after the loop over a list content. *)
Fixpoint text_contents (content : list json) : list json :=
  match content with
  | [] => []
  | item :: rest =>
      match item with
      | JObj d =>
          match lookup "text" d with
          | Some t => t :: text_contents rest
          | None => text_contents rest
          end
      | JStr s => JStr s :: text_contents rest
      | _ => text_contents rest
      end
  end.

Definition description_body (api_response : dict) : result string :=
  let output := dict_get api_response "output" (JObj []) in
  choices <~ py_get output "choices" (JArr []) ;;
  if negb (truthy choices)
  then Raise (Exception "No choices found in API response" None)
  else
    first <~ getitem_int choices 0 ;;
    message <~ py_get first "message" (JObj []) ;;
    content <~ py_get message "content" (JStr "") ;;
    if negb (truthy content)
    then Raise (Exception "No content found in API response" None)
    else
      match content with
      | JArr items =>
          joined <~ join " " (text_contents items) ;;
          Ok (strip joined)
      | JStr s => Ok (strip s)
      | _ => Raise AttributeError
      end.

(** The two handlers: [KeyError] and [IndexError] are re-raised quietly,
    everything else after printing the raw response. *)
Definition extract_description (api_response : dict) : M string :=
  match description_body api_response with
  | Ok description => ret description
  | Raise (KeyError k) =>
      raise (Exception "Failed to extract description from response: "
               (Some (KeyError k)))
  | Raise IndexError =>
      raise (Exception "Failed to extract description from response: "
               (Some IndexError))
  | Raise e =>
      print [PStr "Raw API response: "; PDumps (JObj api_response)] ;;;
      raise (Exception "Unexpected error processing API response: " (Some e))
  end.

Section Workflow.

(** [LocationData] and the prompt built from it; the coordinates are
    floats rendered into the prompt text, which no property below reads. *)
Variable LocationData : Type.
Variable create_prompt : LocationData -> string.

Variable api_endpoint : string.

(** The body of the [with Image.open(image_path)] block, all of it the
    image library's: load, RGB conversion, thumbnail to [max_size], JPEG
    at quality 85, base64.  [Raise] when any of these raises. *)
Variable image_pipeline : string -> Z * Z -> result string.

(** [requests.post(...)], [raise_for_status()] and [response.json()]:
    the decoded body, or the exception raised, by its class.
    [RequestException] stands for every exception of that class, among
    them the decoding error that requests 2.27 and later raise for a body
    that is not JSON (it is a JSONDecodeError as well, and the first
    handler takes it).  [JSONDecodeError] stands for a
    [json.JSONDecodeError] that is no [RequestException], as earlier
    versions of requests raise. *)
Variable http_post : string -> string -> string -> result dict.

Definition preprocess_image (image_path : string) (max_size : Z * Z) : M string :=
  match image_pipeline image_path max_size with
  | Ok image_base64 => ret image_base64
  | Raise e => raise (Exception "Error preprocessing image: " (Some e))
  end.

(** The two handlers in their order: [except RequestException] first,
    [except json.JSONDecodeError] second; anything else passes. *)
Definition call_qianwen_api (image_base64 prompt : string) : M dict :=
  emit (Post api_endpoint image_base64 prompt) ;;;
  match http_post api_endpoint image_base64 prompt with
  | Ok response => ret response
  | Raise (RequestException t) =>
      raise (Exception "API request failed: " (Some (RequestException t)))
  | Raise JSONDecodeError =>
      raise (Exception "Failed to parse API response: " (Some JSONDecodeError))
  | Raise e => raise e
  end.

Definition process_image (image_path : string) (location : LocationData) : M string :=
  try_except
    (print [PStr "Preprocessing image..."] ;;;
     image_base64 <- preprocess_image image_path (1024, 1024) ;;
     print [PStr "Creating prompt..."] ;;;
     let prompt := create_prompt location in
     print [PStr "Calling Qianwen AI API..."] ;;;
     api_response <- call_qianwen_api image_base64 prompt ;;
     print [PStr "Extracting description..."] ;;;
     extract_description api_response)
    (fun e => print [PStr "Error in workflow: "; PExc e] ;;; raise e).

End Workflow.

End ImageRecognition.

(* ================================================================== *)
(** * A decoder for JSON text

    The parameter [json_loads] of the travel planner stands for Python's
    [json.loads].  [JsonText.loads] is a decoder for the part of the
    JSON grammar without fractions, exponents and [\u] escapes; it is
    what the examples run. *)

Module JsonText.

Definition is_ws (c : ascii) : bool :=
  let n := nat_of_ascii c in
  ((n =? 32) || (n =? 9) || (n =? 10) || (n =? 13))%nat.

Fixpoint skip_ws (s : string) : string :=
  match s with
  | String c s' => if is_ws c then skip_ws s' else s
  | "" => ""
  end.

Definition unescape (c : ascii) : option ascii :=
  if Ascii.eqb c "034" then Some "034"%char
  else if Ascii.eqb c "\" then Some "\"%char
  else if Ascii.eqb c "/" then Some "/"%char
  else if Ascii.eqb c "b" then Some "008"%char
  else if Ascii.eqb c "f" then Some "012"%char
  else if Ascii.eqb c "n" then Some "010"%char
  else if Ascii.eqb c "r" then Some "013"%char
  else if Ascii.eqb c "t" then Some "009"%char
  else None.

(** After the opening quote: the text up to the closing quote, and what
    follows it. *)
Fixpoint string_body (s : string) : option (string * string) :=
  match s with
  | "" => None
  | String c s' =>
      if Ascii.eqb c "034" then Some ("", s')
      else if Ascii.eqb c "\" then
        match s' with
        | String e s'' =>
            match unescape e, string_body s'' with
            | Some ch, Some (body, rest) => Some (String ch body, rest)
            | _, _ => None
            end
        | "" => None
        end
      else if (nat_of_ascii c <? 32)%nat then None
      else
        match string_body s' with
        | Some (body, rest) => Some (String c body, rest)
        | None => None
        end
  end.

Definition digit_value (c : ascii) : option Z :=
  let n := nat_of_ascii c in
  if ((48 <=? n) && (n <=? 57))%nat then Some (Z.of_nat n - 48) else None.

(** The digits at the head of [s], read from the value [acc]. *)
Fixpoint digits (s : string) (acc : Z) : Z * string :=
  match s with
  | String c s' =>
      match digit_value c with
      | Some d => digits s' (10 * acc + d)
      | None => (acc, s)
      end
  | "" => (acc, s)
  end.

Definition starts_fraction (s : string) : bool :=
  match s with
  | String c _ => Ascii.eqb c "." || Ascii.eqb c "e" || Ascii.eqb c "E"
  | "" => false
  end.

(** An integer without sign: one digit, or digits not led by [0]. *)
Definition natural (s : string) : option (Z * string) :=
  match s with
  | String c s' =>
      match digit_value c with
      | Some 0 => if starts_fraction s' then None else Some (0, s')
      | Some d => let (n, rest) := digits s' d in
                  if starts_fraction rest then None else Some (n, rest)
      | None => None
      end
  | "" => None
  end.

Definition drop (n : nat) (s : string) : string :=
  substring n (String.length s - n) s.

(** A repeated member name keeps its first place and its last value. *)
Definition add_member (k : string) (v : json) (rest : dict) : dict :=
  (k, dict_get rest k v)
    :: filter (fun kv => negb (String.eqb (fst kv) k)) rest.

Fixpoint value (fuel : nat) (s : string) {struct fuel} : option (json * string) :=
  match fuel with
  | O => None
  | S f =>
      match skip_ws s with
      | "" => None
      | String c r as t =>
          if Ascii.eqb c "[" then
            match skip_ws r with
            | String "]" r' => Some (JArr [], r')
            | _ =>
                match elements f r with
                | Some (l, r') => Some (JArr l, r')
                | None => None
                end
            end
          else if Ascii.eqb c "{" then
            match skip_ws r with
            | String "}" r' => Some (JObj [], r')
            | _ =>
                match members f r with
                | Some (d, r') => Some (JObj d, r')
                | None => None
                end
            end
          else if Ascii.eqb c "034" then
            match string_body r with
            | Some (body, r') => Some (JStr body, r')
            | None => None
            end
          else if Ascii.eqb c "-" then
            match natural r with
            | Some (n, r') => Some (JInt (- n), r')
            | None => None
            end
          else if starts_with "true" t then Some (JBool true, drop 4 t)
          else if starts_with "false" t then Some (JBool false, drop 5 t)
          else if starts_with "null" t then Some (JNull, drop 4 t)
          else
            match natural t with
            | Some (n, r') => Some (JInt n, r')
            | None => None
            end
      end
  end
with elements (fuel : nat) (s : string) {struct fuel} : option (list json * string) :=
  match fuel with
  | O => None
  | S f =>
      match value f s with
      | Some (v, r) =>
          match skip_ws r with
          | String "," r' =>
              match elements f r' with
              | Some (l, r'') => Some (v :: l, r'')
              | None => None
              end
          | String "]" r' => Some ([v], r')
          | _ => None
          end
      | None => None
      end
  end
with members (fuel : nat) (s : string) {struct fuel} : option (dict * string) :=
  match fuel with
  | O => None
  | S f =>
      match skip_ws s with
      | String "034" r =>
          match string_body r with
          | Some (k, r1) =>
              match skip_ws r1 with
              | String ":" r2 =>
                  match value f r2 with
                  | Some (v, r3) =>
                      match skip_ws r3 with
                      | String "," r4 =>
                          match members f r4 with
                          | Some (d, r5) => Some (add_member k v d, r5)
                          | None => None
                          end
                      | String "}" r4 => Some ([(k, v)], r4)
                      | _ => None
                      end
                  | None => None
                  end
              | _ => None
              end
          | None => None
          end
      | _ => None
      end
  end.

Definition loads (s : string) : option json :=
  match value (2 * String.length s + 2) s with
  | Some (v, rest) =>
      match skip_ws rest with
      | "" => Some v
      | _ => None
      end
  | None => None
  end.

End JsonText.


(* ================================================================== *)
(** * Vocabulary of the properties *)

Import TravelPlanner RoutePlanner ImageRecognition.

Definition quoted (s : string) : string := dquote ++ s ++ dquote.

(** The events of a trace that are directions requests. *)
Definition is_directions (ev : event) : bool :=
  match ev with Directions _ _ _ _ _ _ => true | _ => false end.

Definition is_post (ev : event) : bool :=
  match ev with Post _ _ _ => true | _ => false end.

Definition requests (t : list event) : list event := filter is_directions t.

(** The character [c] does not occur in [s]. *)
Fixpoint lacks (c : ascii) (s : string) : bool :=
  match s with
  | "" => true
  | String c' s' => negb (Ascii.eqb c' c) && lacks c s'
  end.

(** [old] occurs somewhere in [s]. *)
Fixpoint occurs (old s : string) : bool :=
  starts_with old s ||
  match s with
  | "" => false
  | String _ s' => occurs old s'
  end.

(** ** Destination extraction *)

(** The content the first key present holds, for the wrapper shapes the
    service variants use. *)
Inductive selected (r : dict) : json -> Prop :=
| sel_output d :
    lookup "output" r = Some (JObj d) ->
    selected r (dict_get d "text" (JStr ""))
| sel_response v :
    lookup "output" r = None ->
    lookup "response" r = Some v ->
    selected r v
| sel_choices d rest :
    lookup "output" r = None ->
    lookup "response" r = None ->
    lookup "choices" r = Some (JArr (JObj d :: rest)) ->
    selected r (dict_get d "text" (JStr ""))
| sel_no_choice v :
    lookup "output" r = None ->
    lookup "response" r = None ->
    lookup "choices" r = Some v ->
    truthy v = false ->
    selected r JNull
| sel_none :
    lookup "output" r = None ->
    lookup "response" r = None ->
    lookup "choices" r = None ->
    selected r JNull.

(** The chosen wrapper has not the shape its branch subscripts: an
    [output] that is no object, or [choices] that are true and are no
    list led by an object.  [e] is the exception of the failing step. *)
Inductive misshaped (r : dict) : exc -> Prop :=
| mis_output v :
    lookup "output" r = Some v ->
    (forall d, v <> JObj d) ->
    misshaped r AttributeError
| mis_first x rest :
    lookup "output" r = None ->
    lookup "response" r = None ->
    lookup "choices" r = Some (JArr (x :: rest)) ->
    (forall d, x <> JObj d) ->
    misshaped r AttributeError
| mis_keyed member members :
    lookup "output" r = None ->
    lookup "response" r = None ->
    lookup "choices" r = Some (JObj (member :: members)) ->
    misshaped r (KeyError (JInt 0))
| mis_text c s :
    lookup "output" r = None ->
    lookup "response" r = None ->
    lookup "choices" r = Some (JStr (String c s)) ->
    misshaped r AttributeError
| mis_number z :
    lookup "output" r = None ->
    lookup "response" r = None ->
    lookup "choices" r = Some (JInt z) ->
    z <> 0 ->
    misshaped r TypeError
| mis_true :
    lookup "output" r = None ->
    lookup "response" r = None ->
    lookup "choices" r = Some (JBool true) ->
    misshaped r TypeError.

(** The content as the specification words it: the three places in
    order, the first non-empty one. *)
Definition places (r : dict) : list (option json) :=
  [ match lookup "output" r with
    | Some (JObj d) => lookup "text" d
    | _ => None
    end;
    lookup "response" r;
    match lookup "choices" r with
    | Some (JArr (JObj d :: _)) => lookup "text" d
    | _ => None
    end ].

Fixpoint first_nonempty (l : list (option json)) : option json :=
  match l with
  | [] => None
  | Some v :: rest => if truthy v then Some v else first_nonempty rest
  | None :: rest => first_nonempty rest
  end.


(** Every field of [dest] is the member of that name of the object [data]. *)
Definition populated (data : json) (dest : TravelDestination) : Prop :=
  exists d, data = JObj d /\
    lookup "name" d = Some (name dest) /\
    lookup "description" d = Some (description dest) /\
    lookup "recommended_duration" d = Some (recommended_duration dest) /\
    lookup "best_time_to_visit" d = Some (best_time_to_visit dest) /\
    lookup "highlights" d = Some (highlights dest).




Definition no_content : exc := Exception "No content found in API response" None.

Definition extraction_failed (cause : exc) : exc :=
  Exception "Failed to extract destinations from response: " (Some cause).

(** All the contiguous parts of a text. *)
Fixpoint prefixes (s : string) : list string :=
  "" :: match s with
        | "" => []
        | String c s' => map (String c) (prefixes s')
        end.

Fixpoint segments (s : string) : list string :=
  (prefixes s ++ match s with
                 | "" => []
                 | String _ s' => segments s'
                 end)%list.

Definition decodes_to_array (loads : string -> option json) (s : string) : bool :=
  match loads s with Some (JArr _) => true | _ => false end.

(** ** Route parsing *)

(** The legs of a route, as the loops visit them. *)
Definition legs_of (route_data : json) : result (list json) :=
  legs <~ getitem route_data "legs" ;; iter legs.

(** [leg[field]['value']] as a number. *)
Definition leg_value (field : string) (leg : json) : result Z :=
  d <~ getitem leg field ;; v <~ getitem d "value" ;; as_int v.

Definition total (zs : list Z) : Z := fold_right Z.add 0 zs.

(** The instruction texts of a list of steps, as the service gave them. *)
Fixpoint instructions (steps : list json) : result (list string) :=
  match steps with
  | [] => Ok []
  | step :: rest =>
      i <~ getitem step "html_instructions" ;;
      match i with
      | JStr t => more <~ instructions rest ;; Ok (t :: more)
      | _ => Raise AttributeError
      end
  end.

Definition leg_instructions (leg : json) : result (list string) :=
  s <~ getitem leg "steps" ;; l <~ iter s ;; instructions l.

Definition need_two : exc :=
  Exception "Need at least 2 locations to calculate a route" None.

(** ** Description extraction *)

(** [c] is what [output.choices[0].message.content] holds. *)
Definition content_at (r : dict) (c : json) : Prop :=
  exists output first rest message,
    lookup "output" r = Some (JObj output) /\
    lookup "choices" output = Some (JArr (JObj first :: rest)) /\
    lookup "message" first = Some (JObj message) /\
    lookup "content" message = Some c.

(** A fragment with the text [t]: the bare string, or an object whose
    [text] member is that string. *)
Definition fragment (item : json) (t : string) : Prop :=
  item = JStr t \/ exists d, item = JObj d /\ lookup "text" d = Some (JStr t).

Definition recognized (item : json) : bool :=
  match item with
  | JStr _ => true
  | JObj d => mem "text" d
  | _ => false
  end.

(** The texts of the fragments of a list, the other items passed over. *)
Inductive kept : list json -> list string -> Prop :=
| kept_nil : kept [] []
| kept_fragment item t items texts :
    fragment item t -> kept items texts -> kept (item :: items) (t :: texts)
| kept_skip item items texts :
    recognized item = false -> kept items texts -> kept (item :: items) texts.

(** No choices under [output]. *)
Inductive no_choices (r : dict) : Prop :=
| nc_no_output :
    lookup "output" r = None -> no_choices r
| nc_missing output :
    lookup "output" r = Some (JObj output) ->
    lookup "choices" output = None -> no_choices r
| nc_empty output c :
    lookup "output" r = Some (JObj output) ->
    lookup "choices" output = Some c -> truthy c = false -> no_choices r.

(** Choices, and nothing in the first choice's message. *)
Inductive empty_content (r : dict) : Prop :=
| ec_no_message output first rest :
    lookup "output" r = Some (JObj output) ->
    lookup "choices" output = Some (JArr (JObj first :: rest)) ->
    lookup "message" first = None -> empty_content r
| ec_missing output first rest message :
    lookup "output" r = Some (JObj output) ->
    lookup "choices" output = Some (JArr (JObj first :: rest)) ->
    lookup "message" first = Some (JObj message) ->
    lookup "content" message = None -> empty_content r
| ec_empty output first rest message c :
    lookup "output" r = Some (JObj output) ->
    lookup "choices" output = Some (JArr (JObj first :: rest)) ->
    lookup "message" first = Some (JObj message) ->
    lookup "content" message = Some c ->
    truthy c = false -> empty_content r.

(** The exceptions the first handler takes. *)
Definition lookup_failure (e : exc) : bool :=
  match e with
  | KeyError _ | IndexError => true
  | _ => false
  end.

Definition no_choices_found : exc :=
  Exception "No choices found in API response" None.

Definition failed_lookup (cause : exc) : exc :=
  Exception "Failed to extract description from response: " (Some cause).

Definition unexpected (cause : exc) : exc :=
  Exception "Unexpected error processing API response: " (Some cause).

Definition raw_dump (r : dict) : event :=
  Print [PStr "Raw API response: "; PDumps (JObj r)].

Definition preprocessing_failed (cause : exc) : exc :=
  Exception "Error preprocessing image: " (Some cause).

(** ** Sample data *)

Definition response_with (content : json) : dict :=
  [("output",
    JObj [("choices",
           JArr [JObj [("finish_reason", JStr "stop");
                       ("message",
                        JObj [("role", JStr "assistant");
                              ("content", content)])]])]);
   ("request_id", JStr "0")].

Definition abc_content : json :=
  JArr [JObj [("text", JStr "A")]; JStr "B"; JObj [("text", JStr "C")]].

(** Choices keyed by position instead of listed. *)
Definition keyed_choices_response : dict :=
  [("output",
    JObj [("choices",
           JObj [("0", JObj [("message",
                              JObj [("content", JStr "College Hall.")])])])])].

(** An image library that finds one file only. *)
Definition one_image (path : string) (max_size : Z * Z) : result string :=
  if String.eqb path "image_example/example10.jpg"
  then Ok "/9j/4AAQSkZJRg=="
  else Raise (OSError "No such file or directory").

Definition sample_leg (meters seconds : Z) (from to : string)
    (texts : list string) : json :=
  JObj [("distance", JObj [("text", JStr "-"); ("value", JInt meters)]);
        ("duration", JObj [("text", JStr "-"); ("value", JInt seconds)]);
        ("start_address", JStr from);
        ("end_address", JStr to);
        ("steps", JArr (map (fun t => JObj [("html_instructions", JStr t)]) texts))].

Definition main_st : string :=
  "<b>Turn left</b>" ++ div_open ++ "onto Main St</div>".

Definition sample_route : json :=
  JObj [("summary", JStr "Locust Walk");
        ("legs",
         JArr [sample_leg 1000 60 "College Hall" "Fisher Fine Arts Library"
                 ["Head <b>west</b> on Locust Walk"; main_st];
               sample_leg 500 65 "Fisher Fine Arts Library" "Huntsman Hall"
                 ["Continue <wbr/>straight"]])].

Definition sample_object : string :=
  "{" ++ quoted "name" ++ ": " ++ quoted "Fisher Fine Arts Library" ++ ", "
      ++ quoted "description" ++ ": " ++ quoted "A red sandstone library." ++ ", "
      ++ quoted "recommended_duration" ++ ": " ++ quoted "30 minutes" ++ ", "
      ++ quoted "best_time_to_visit" ++ ": " ++ quoted "weekdays" ++ ", "
      ++ quoted "highlights" ++ ": [" ++ quoted "Reading room" ++ ", "
      ++ quoted "Architecture" ++ "]}".

Definition sample_text : string := "[" ++ sample_object ++ "]".

Definition sample_element : json :=
  JObj [("name", JStr "Fisher Fine Arts Library");
        ("description", JStr "A red sandstone library.");
        ("recommended_duration", JStr "30 minutes");
        ("best_time_to_visit", JStr "weekdays");
        ("highlights", JArr [JStr "Reading room"; JStr "Architecture"])].

Definition sample_destination : TravelDestination :=
  {| name := JStr "Fisher Fine Arts Library";
     description := JStr "A red sandstone library.";
     recommended_duration := JStr "30 minutes";
     best_time_to_visit := JStr "weekdays";
     highlights := JArr [JStr "Reading room"; JStr "Architecture"] |}.

(** A response with an [output] member that carries no text, and the
    destination list under [response]. *)
Definition shadowed_response : dict :=
  [("output", JObj [("finish_reason", JStr "stop")]);
   ("response", JStr sample_text)].

Definition prose_with_brackets : string := "Picks [ranked]: [1]".

Definition choices_response : dict :=
  [("choices", JArr [JObj [("text", JStr sample_text)]])].

Definition prose_with_array : string := "Here are the stops: [1, 2] Enjoy!".



(* ================================================================== *)
(** * The rest of the three files

    The functions around the parsers: prompt construction, the calls to
    the generation service, the two workflows that chain them, and
    geocoding. *)

Definition nl : string := String "010"%char "".

(** ** travel_planner.py: create_prompt, call_qianwen_api, plan_travel *)

Module TravelWorkflow.

(** The f-string of [create_prompt], up to the question and after it. *)
Definition prompt_before : string :=
  nl ++
  "        You are VISTA, an expert travel planner. Based on the following question, suggest 3-5 specific locations/buildings that would be perfect for the user's needs." ++ nl ++
  nl ++
  "        User Question: ".

Definition prompt_after : string :=
  nl ++
  nl ++
  "        Keep it simple - I only need the location names with minimal information. For each location, provide:" ++ nl ++
  "        1. Name of the location/building" ++ nl ++
  "        2. A very brief description (1 sentence only)" ++ nl ++
  "        3. Duration (keep it simple like " ++ dquote ++ "30 minutes" ++ dquote ++ ")" ++ nl ++
  "        4. When to visit (keep it simple like " ++ dquote ++ "anytime" ++ dquote ++ " or " ++ dquote ++ "weekdays" ++ dquote ++ ")" ++ nl ++
  "        5. Just 2-3 brief highlights" ++ nl ++
  nl ++
  "        Format the response as a JSON array with the following structure:" ++ nl ++
  "        [" ++ nl ++
  "            {" ++ nl ++
  "                " ++ dquote ++ "name" ++ dquote ++ ": " ++ dquote ++ "Location Name" ++ dquote ++ "," ++ nl ++
  "                " ++ dquote ++ "description" ++ dquote ++ ": " ++ dquote ++ "One brief sentence" ++ dquote ++ "," ++ nl ++
  "                " ++ dquote ++ "recommended_duration" ++ dquote ++ ": " ++ dquote ++ "30 minutes" ++ dquote ++ "," ++ nl ++
  "                " ++ dquote ++ "best_time_to_visit" ++ dquote ++ ": " ++ dquote ++ "anytime" ++ dquote ++ "," ++ nl ++
  "                " ++ dquote ++ "highlights" ++ dquote ++ ": [" ++ dquote ++ "Brief point 1" ++ dquote ++ ", " ++ dquote ++ "Brief point 2" ++ dquote ++ "]" ++ nl ++
  "            }" ++ nl ++
  "        ]" ++ nl ++
  nl ++
  "        Keep everything concise - I mainly just need the location names." ++ nl ++
  "        ".

Definition create_prompt (user_question : string) : string :=
  strip (prompt_before ++ user_question ++ prompt_after).

(** What [requests.post], [raise_for_status()] and [response.json()]
    come to, the exceptions by their class:
    - the decoded body;
    - an exception that is a [RequestException], with its message and,
      when it carries a response, that response's text.  The decoding
      error that requests 2.27 and later raise for a body that is not
      JSON is one of these (it is a JSONDecodeError as well, and the
      first handler takes it);
    - a [json.JSONDecodeError] that is no [RequestException], as earlier
      versions of requests raise for such a body, with the text of the
      response the handler prints;
    - an exception of another class. *)
Inductive reply : Type :=
| Replied (response_data : dict)
| RequestFailed (message : string) (response_text : option string)
| PlainDecodeError (raw : string)
| Raised (e : exc).

Section Workflow.

Variable json_loads : string -> option json.
Variable api_endpoint : string.

(** The POST of the payload built around [prompt]. *)
Variable http_post : string -> string -> reply.

(** The text request carries no image.  The handlers in their order:
    [except RequestException] first, [except json.JSONDecodeError]
    second; anything else passes. *)
Definition call_qianwen_api (prompt : string) : M dict :=
  emit (Post api_endpoint "" prompt) ;;;
  match http_post api_endpoint prompt with
  | Replied response_data =>
      print [PStr "API Response: "; PDumps (JObj response_data)] ;;;
      ret response_data
  | RequestFailed message response_text =>
      print [PStr "API request failed: "; PExc (RequestException message)] ;;;
      (match response_text with
       | Some t => print [PStr ("Response text: " ++ t)]
       | None => ret tt
       end) ;;;
      raise (Exception "API request failed: " (Some (RequestException message)))
  | PlainDecodeError raw =>
      print [PStr "Failed to parse API response: "; PExc JSONDecodeError] ;;;
      print [PStr ("Raw response: " ++ raw)] ;;;
      raise (Exception "Failed to parse API response: " (Some JSONDecodeError))
  | Raised e => raise e
  end.

Definition plan_travel (user_question : string) : M (list TravelDestination) :=
  try_except
    (print [PStr "Creating prompt..."] ;;;
     let prompt := create_prompt user_question in
     print [PStr "Calling Qianwen AI API..."] ;;;
     api_response <- call_qianwen_api prompt ;;
     print [PStr "Extracting destinations..."] ;;;
     extract_destinations json_loads api_response)
    (fun e => print [PStr "Error in workflow: "; PExc e] ;;; raise e).

End Workflow.

End TravelWorkflow.

(** ** route_planner.py: geocode_location *)

Module Geocoding.

Definition default_context : string :=
  "University of Pennsylvania, Philadelphia, PA".

Section Geocoder.

(** [gmaps.geocode(query)]: the decoded list of results, or what the
    client raises. *)
Variable geocode : string -> result json.

(** The coordinates are handed on as the decoded result holds them. *)
Definition geocode_location (location_name context : string) : M (json * json) :=
  try_except
    (let full_query := location_name ++ ", " ++ context in
     first_result <- lift (geocode full_query) ;;
     geocode_result <-
       (if negb (truthy first_result)
        then lift (geocode location_name)
        else ret first_result) ;;
     if truthy geocode_result
     then
       lift (top <~ getitem_int geocode_result 0 ;;
             geometry <~ getitem top "geometry" ;;
             location <~ getitem geometry "location" ;;
             lat <~ getitem location "lat" ;;
             lng <~ getitem location "lng" ;;
             Ok (lat, lng))
     else
       raise (Exception ("Could not geocode location: " ++ location_name) None))
    (fun e =>
       print [PStr ("Geocoding error for " ++ location_name ++ ": "); PExc e] ;;;
       raise e).

End Geocoder.

End Geocoding.

(** ** image_recognition_workflow.py: get_location_context, create_prompt *)

Module ImagePrompt.

Section Location.

(** A Python [float] and its rendering in an f-string. *)
Variable float : Type.
Variable str_float : float -> string.

Record LocationData : Type := {
  latitude : float;
  longitude : float;
  address : option string;
  landmark : option string
}.

(** [if text:] on an [Optional[str]] *)
Definition given (text : option string) : bool :=
  match text with
  | Some t => negb (String.eqb t "")
  | None => false
  end.

Definition text_of (text : option string) : string :=
  match text with Some t => t | None => "" end.

Definition get_location_context (location : LocationData) : string :=
  let context :=
    "Location coordinates: " ++ str_float (latitude location) ++ ", "
      ++ str_float (longitude location) in
  let context :=
    if given (address location)
    then context ++ nl ++ "Address: " ++ text_of (address location)
    else context in
  if given (landmark location)
  then context ++ nl ++ "Nearby landmark: " ++ text_of (landmark location)
  else context.

Definition prompt_before : string :=
  nl ++
  "        You are VISTA, an enthusiastic and knowledgeable tour guide. Analyze this image and provide a detailed, engaging description of the building or landmark shown." ++ nl ++
  "        " ++ nl ++
  "        ".

Definition prompt_after : string :=
  nl ++
  "        " ++ nl ++
  "        Please provide:" ++ nl ++
  "        1. A vivid description of the building/landmark in the image" ++ nl ++
  "        4. Any interesting facts or recommendations for visitors" ++ nl ++
  "        5. Safety tips or practical advice if relevant (If no then don't mention it)" ++ nl ++
  nl ++
  "        Write all of the above in a single paragraph, make it short and concise." ++ nl ++
  nl ++
  "        Do not include the location context provided by the user in your response. The location context will be close but might not be exactly accurate. " ++ nl ++
  "        " ++ nl ++
  "        You should first identify what's in the image and then look for the building/landmark in the image. The building/landmark will be very close to the location provided." ++ nl ++
  nl ++
  "        Keep the tone friendly and informative, as if you're speaking to a curious tourist. Focus on what makes this place special and worth visiting." ++ nl ++
  "        ".

Definition create_prompt (location : LocationData) : string :=
  strip (prompt_before ++ get_location_context location ++ prompt_after).

End Location.

End ImagePrompt.

(** ** Vocabulary of the further properties *)

(** Every character of the text is white space. *)
Fixpoint blank (s : string) : bool :=
  match s with
  | "" => true
  | String c s' => isspace c && blank s'
  end.

(** The text has no white space at its start nor at its end. *)
Definition trimmed (s : string) : Prop := lstrip s = s /\ rstrip s = s.

Definition posts (t : list event) : list event := filter is_post t.

Definition request_failed (message : string) : exc :=
  Exception "API request failed: " (Some (RequestException message)).

Definition not_json : exc :=
  Exception "Failed to parse API response: " (Some JSONDecodeError).

Definition no_route : exc := Exception "No route found" None.

(** A geocoding result with the given coordinates. *)
Definition place (lat lng : json) : json :=
  JObj [("formatted_address", JStr "-");
        ("geometry", JObj [("location", JObj [("lat", lat); ("lng", lng)])])].

(** The first result of a geocoding reply has the coordinates [lat] and
    [lng]. *)
Definition located (results : json) (lat lng : json) : Prop :=
  exists top more geometry location,
    results = JArr (JObj top :: more) /\
    lookup "geometry" top = Some (JObj geometry) /\
    lookup "location" geometry = Some (JObj location) /\
    lookup "lat" location = Some lat /\
    lookup "lng" location = Some lng.

Definition not_geocoded (location_name : string) : exc :=
  Exception ("Could not geocode location: " ++ location_name) None.

Definition geocoding_error (location_name : string) (e : exc) : event :=
  Print [PStr ("Geocoding error for " ++ location_name ++ ": "); PExc e].

(* ================================================================== *)
(** * Properties *)

(** ** The result monad and the subscripts *)

Lemma and_then_ok {A B} (r : result A) (k : A -> result B) (b : B) :
  and_then r k = Ok b -> exists a, r = Ok a /\ k a = Ok b.
Proof.
  destruct r as [a|e]; simpl; intro H.
  - exists a. split; [reflexivity | exact H].
  - discriminate H.
Qed.

Lemma list_index_head {A} (x : A) (l : list A) :
  list_index (x :: l) 0 = Some x.
Proof.
  unfold list_index.
  replace (0 <? 0) with false by reflexivity.
  replace (0 <=? 0) with true by reflexivity.
  assert (H : (0 <? Z.of_nat (length (x :: l))) = true)
    by (apply Z.ltb_lt; simpl length; lia).
  rewrite H. reflexivity.
Qed.

Lemma list_index_end {A} (l : list A) (b : A) :
  list_index (l ++ [b])%list (-1) = Some b.
Proof.
  unfold list_index.
  replace (-1 <? 0) with true by reflexivity.
  assert (L : Z.of_nat (length (l ++ [b])%list) = Z.of_nat (length l) + 1).
  { rewrite length_app. simpl. lia. }
  rewrite L.
  replace (0 <=? -1 + (Z.of_nat (length l) + 1)) with true
    by (symmetry; apply Z.leb_le; lia).
  replace (-1 + (Z.of_nat (length l) + 1) <? Z.of_nat (length l) + 1) with true
    by (symmetry; apply Z.ltb_lt; lia).
  replace (Z.to_nat (-1 + (Z.of_nat (length l) + 1))) with (length l) by lia.
  simpl. rewrite nth_error_app2 by lia.
  rewrite Nat.sub_diag. reflexivity.
Qed.

Lemma list_index_last {A} (a b : A) (mid : list A) :
  list_index (a :: mid ++ [b])%list (-1) = Some b.
Proof. exact (list_index_end (a :: mid) b). Qed.

Lemma list_index_final {A} (l : list A) (d : A) :
  l <> [] -> list_index l (-1) = Some (last l d).
Proof.
  intro H. rewrite (app_removelast_last d H) at 1. apply list_index_end.
Qed.

Lemma truthy_text (s : string) : s <> "" -> truthy (JStr s) = true.
Proof.
  intro H. simpl. apply negb_true_iff. apply String.eqb_neq. exact H.
Qed.

Lemma mem_true (k : string) (d : dict) (v : json) :
  lookup k d = Some v -> mem k d = true.
Proof. unfold mem. intros ->. reflexivity. Qed.

Lemma mem_false (k : string) (d : dict) :
  lookup k d = None -> mem k d = false.
Proof. unfold mem. intros ->. reflexivity. Qed.


(** ** Texts *)

Lemma append_empty_r (a : string) : a ++ "" = a.
Proof.
  induction a as [|x a IH]; simpl; [reflexivity | rewrite IH; reflexivity].
Qed.

(** ** The bracketed part found by the regular expression *)

Lemma after_first_open_app (pre t : string) :
  lacks "[" pre = true -> after_first_open (pre ++ String "[" t) = Some t.
Proof.
  induction pre as [|c pre IH]; simpl; intro H.
  - reflexivity.
  - apply andb_true_iff in H. destruct H as [Hc H].
    apply negb_true_iff in Hc. rewrite Hc. apply IH. exact H.
Qed.

Lemma upto_last_close_lacks (post : string) :
  lacks "]" post = true -> upto_last_close post = None.
Proof.
  induction post as [|c post IH]; simpl; intro H.
  - reflexivity.
  - apply andb_true_iff in H. destruct H as [Hc H].
    apply negb_true_iff in Hc. rewrite (IH H), Hc. reflexivity.
Qed.

Lemma upto_last_close_app (mid post : string) :
  lacks "]" post = true ->
  upto_last_close (mid ++ String "]" post) = Some (mid ++ "]").
Proof.
  intro H. induction mid as [|c mid IH]; simpl.
  - rewrite (upto_last_close_lacks _ H). reflexivity.
  - rewrite IH. reflexivity.
Qed.

(** A text with a closing bracket after its first opening one: the match
    runs from the first ['['] to the last [']']. *)
Lemma search_bracketed_app (pre mid post : string) :
  lacks "[" pre = true -> lacks "]" post = true ->
  search_bracketed (pre ++ "[" ++ mid ++ "]" ++ post) = Some ("[" ++ mid ++ "]").
Proof.
  intros Hpre Hpost. unfold search_bracketed. simpl.
  rewrite (after_first_open_app _ _ Hpre).
  rewrite (upto_last_close_app _ _ Hpost). reflexivity.
Qed.

Lemma after_first_open_some (s t : string) :
  after_first_open s = Some t ->
  exists pre, s = pre ++ String "[" t /\ lacks "[" pre = true.
Proof.
  revert t. induction s as [|c s IH]; simpl; intros t H.
  - discriminate H.
  - destruct (Ascii.eqb c "[") eqn:Hc.
    + injection H as <-. apply Ascii.eqb_eq in Hc. subst c.
      exists "". split; reflexivity.
    + destruct (IH _ H) as (pre & -> & Hpre).
      exists (String c pre). split; [reflexivity|].
      simpl. rewrite Hc, Hpre. reflexivity.
Qed.

Lemma upto_last_close_none (s : string) :
  upto_last_close s = None -> lacks "]" s = true.
Proof.
  induction s as [|c s IH]; simpl; intro H.
  - reflexivity.
  - destruct (upto_last_close s); [discriminate H|].
    destruct (Ascii.eqb c "]"); [discriminate H|].
    simpl. apply IH. reflexivity.
Qed.

Lemma upto_last_close_some (s r : string) :
  upto_last_close s = Some r ->
  exists mid post, s = r ++ post /\ r = mid ++ "]" /\ lacks "]" post = true.
Proof.
  revert r. induction s as [|c s IH]; simpl; intros r H.
  - discriminate H.
  - destruct (upto_last_close s) as [r'|] eqn:Hs.
    + injection H as <-.
      destruct (IH _ eq_refl) as (mid & post & -> & -> & Hpost).
      exists (String c mid), post.
      split; [reflexivity | split; [reflexivity | exact Hpost]].
    + destruct (Ascii.eqb c "]") eqn:Hc; [|discriminate H].
      injection H as <-. apply Ascii.eqb_eq in Hc. subst c.
      exists "", s.
      split; [reflexivity | split; [reflexivity | ]].
      apply upto_last_close_none. exact Hs.
Qed.

(** Every match has that form. *)
Lemma search_bracketed_some (s m : string) :
  search_bracketed s = Some m ->
  exists pre mid post,
    s = pre ++ m ++ post /\ m = "[" ++ mid ++ "]" /\
    lacks "[" pre = true /\ lacks "]" post = true.
Proof.
  unfold search_bracketed. intro H.
  destruct (after_first_open s) as [rest|] eqn:Ha; [|discriminate H].
  destruct (upto_last_close rest) as [r|] eqn:Hr; [|discriminate H].
  injection H as <-.
  destruct (after_first_open_some _ _ Ha) as (pre & -> & Hpre).
  destruct (upto_last_close_some _ _ Hr) as (mid & post & -> & -> & Hpost).
  exists pre, mid, post. repeat split; assumption.
Qed.

(** ** travel_planner.py: extract_destinations *)

Section TravelProperties.

Variable json_loads : string -> option json.

Lemma extract_outcome (r : dict) :
  outcome (extract_destinations json_loads r) =
  match extract_body json_loads r with
  | Ok ds => Ok ds
  | Raise e => Raise (extraction_failed e)
  end.
Proof.
  unfold extract_destinations, extraction_failed.
  destruct (extract_body json_loads r); reflexivity.
Qed.

Lemma select_content_selected (r : dict) (c : json) :
  selected r c -> select_content r = Ok c.
Proof.
  intros H. unfold select_content.
  destruct H as [d Ho | v Ho Hr | d rest Ho Hr Hc | v Ho Hr Hc Hv | Ho Hr Hc].
  - rewrite (mem_true _ _ _ Ho). unfold dict_get at 1. rewrite Ho. reflexivity.
  - rewrite (mem_false _ _ Ho), (mem_true _ _ _ Hr).
    unfold dict_get. rewrite Hr. reflexivity.
  - rewrite (mem_false _ _ Ho), (mem_false _ _ Hr), (mem_true _ _ _ Hc).
    unfold dict_get at 1 2. rewrite Hc.
    cbn [truthy getitem_int]. rewrite list_index_head. reflexivity.
  - rewrite (mem_false _ _ Ho), (mem_false _ _ Hr), (mem_true _ _ _ Hc).
    unfold dict_get. rewrite Hc, Hv. reflexivity.
  - rewrite (mem_false _ _ Ho), (mem_false _ _ Hr), (mem_false _ _ Hc).
    reflexivity.
Qed.

Lemma destination_of_populated (data : json) (dest : TravelDestination) :
  populated data dest -> destination_of data = Ok dest.
Proof.
  intros (d & -> & Hn & Hd & Hr & Hb & Hh).
  unfold destination_of, getitem.
  rewrite Hn, Hd, Hr, Hb, Hh. destruct dest; reflexivity.
Qed.

Lemma destination_of_ok (data : json) (dest : TravelDestination) :
  destination_of data = Ok dest -> populated data dest.
Proof.
  unfold destination_of. intro H.
  destruct data as [ | b | z | s | l | d]; try discriminate H.
  exists d. split; [reflexivity|].
  unfold getitem in H.
  destruct (lookup "name" d); [|discriminate H].
  destruct (lookup "description" d); [|discriminate H].
  destruct (lookup "recommended_duration" d); [|discriminate H].
  destruct (lookup "best_time_to_visit" d); [|discriminate H].
  destruct (lookup "highlights" d); [|discriminate H].
  simpl in H. injection H as <-. simpl. repeat split; reflexivity.
Qed.




Lemma convert_ok (elems : list json) (ds : list TravelDestination) :
  convert elems = Ok ds <-> Forall2 populated elems ds.
Proof.
  split.
  - revert ds. induction elems as [|x elems IH]; simpl; intros ds H.
    + injection H as <-. constructor.
    + apply and_then_ok in H. destruct H as (dest & Hx & H).
      apply and_then_ok in H. destruct H as (rest & Hrest & H).
      injection H as <-. constructor.
      * apply destination_of_ok. exact Hx.
      * apply IH. exact Hrest.
  - induction 1 as [|x dest elems ds Hx _ IH]; simpl.
    + reflexivity.
    + rewrite (destination_of_populated _ _ Hx). simpl. rewrite IH. reflexivity.
Qed.


Lemma extract_body_content (r : dict) (content : json) :
  select_content r = Ok content -> truthy content = true ->
  extract_body json_loads r =
  (data <~ parse_content json_loads content ;; items <~ iter data ;; convert items).
Proof.
  intros Hs Ht. unfold extract_body. rewrite Hs. simpl. rewrite Ht. reflexivity.
Qed.

Lemma select_content_misshaped (r : dict) (e : exc) :
  misshaped r e -> select_content r = Raise e.
Proof.
  intros H. unfold select_content.
  destruct H as [v Ho Hv | x rest Ho Hr Hc Hx | member members Ho Hr Hc
                | c s Ho Hr Hc | z Ho Hr Hc Hz | Ho Hr Hc].
  - rewrite (mem_true _ _ _ Ho). unfold dict_get. rewrite Ho.
    destruct v; try reflexivity. exfalso. exact (Hv _ eq_refl).
  - rewrite (mem_false _ _ Ho), (mem_false _ _ Hr), (mem_true _ _ _ Hc).
    unfold dict_get. rewrite Hc. cbn [truthy getitem_int].
    rewrite list_index_head. cbn [and_then].
    destruct x; try reflexivity. exfalso. exact (Hx _ eq_refl).
  - rewrite (mem_false _ _ Ho), (mem_false _ _ Hr), (mem_true _ _ _ Hc).
    unfold dict_get. rewrite Hc. reflexivity.
  - rewrite (mem_false _ _ Ho), (mem_false _ _ Hr), (mem_true _ _ _ Hc).
    unfold dict_get. rewrite Hc. cbn [truthy String.eqb negb getitem_int].
    unfold chars. cbn [list_ascii_of_string map]. rewrite list_index_head.
    reflexivity.
  - rewrite (mem_false _ _ Ho), (mem_false _ _ Hr), (mem_true _ _ _ Hc).
    unfold dict_get. rewrite Hc. cbn [truthy].
    apply Z.eqb_neq in Hz. rewrite Hz. reflexivity.
  - rewrite (mem_false _ _ Ho), (mem_false _ _ Hr), (mem_true _ _ _ Hc).
    unfold dict_get. rewrite Hc. reflexivity.
Qed.

(** Every response either has a chosen wrapper of the expected shape, or
    none of the three keys, or a chosen wrapper of another shape. *)
Lemma selected_or_misshaped (r : dict) :
  (exists c, selected r c) \/ (exists e, misshaped r e).
Proof.
  destruct (lookup "output" r) as [v|] eqn:Ho.
  - destruct v as [ | | | | |d];
      try (right; eexists; eapply mis_output; [exact Ho | discriminate]).
    left. eexists. exact (sel_output r d Ho).
  - destruct (lookup "response" r) as [v|] eqn:Hr.
    + left. exists v. exact (sel_response r v Ho Hr).
    + destruct (lookup "choices" r) as [v|] eqn:Hc.
      * destruct v as [ |b|z|s|l|d].
        -- left. eexists. exact (sel_no_choice r _ Ho Hr Hc eq_refl).
        -- destruct b.
           ++ right. eexists. exact (mis_true r Ho Hr Hc).
           ++ left. eexists. exact (sel_no_choice r _ Ho Hr Hc eq_refl).
        -- destruct (Z.eq_dec z 0) as [->|Hz].
           ++ left. eexists. exact (sel_no_choice r _ Ho Hr Hc eq_refl).
           ++ right. eexists. exact (mis_number r z Ho Hr Hc Hz).
        -- destruct s as [|c s].
           ++ left. eexists. exact (sel_no_choice r _ Ho Hr Hc eq_refl).
           ++ right. eexists. exact (mis_text r c s Ho Hr Hc).
        -- destruct l as [|x rest].
           ++ left. eexists. exact (sel_no_choice r _ Ho Hr Hc eq_refl).
           ++ destruct x as [ | | | | |d];
                try (right; eexists; eapply mis_first;
                     [exact Ho | exact Hr | exact Hc | discriminate]).
              left. eexists. exact (sel_choices r d rest Ho Hr Hc).
        -- destruct d as [|member members].
           ++ left. eexists. exact (sel_no_choice r _ Ho Hr Hc eq_refl).
           ++ right. eexists. exact (mis_keyed r member members Ho Hr Hc).
      * left. eexists. exact (sel_none r Ho Hr Hc).
Qed.

(** C1 (amended).  The wrapper is the first key present among "output",
    "response" and "choices", and the content is read from that wrapper
    alone, whatever the later wrappers hold.  When the wrapper has the
    shape its branch reads (an object under "output", any value under
    "response", a list led by an object under "choices", or choices that
    are empty) and holds nothing, or when no key is present, extraction
    fails with "No content found in API response"; when the wrapper has
    another shape, extraction fails with the exception of the failing
    lookup (AttributeError, KeyError or TypeError); a content that is not
    a string fails with TypeError.  When the wrapper holds a text that
    decodes to a list of complete destination objects, these are the
    destinations returned.  Every response is in one of these cases. *)
Theorem extract_destinations_wrapper_by_key (r : dict) :
  (forall c, selected r c -> truthy c = false ->
     outcome (extract_destinations json_loads r)
     = Raise (extraction_failed no_content))
  /\
  (forall s elems ds,
     selected r (JStr s) -> s <> "" ->
     json_loads s = Some (JArr elems) ->
     Forall2 populated elems ds ->
     outcome (extract_destinations json_loads r) = Ok ds)
  /\
  (forall e, misshaped r e ->
     outcome (extract_destinations json_loads r) = Raise (extraction_failed e))
  /\
  (forall c, selected r c -> truthy c = true -> (forall s, c <> JStr s) ->
     outcome (extract_destinations json_loads r)
     = Raise (extraction_failed TypeError))
  /\
  ((exists c, selected r c) \/ (exists e, misshaped r e)).
Proof.
  split; [|split; [|split; [|split]]];
    [| | intros e He; rewrite extract_outcome; unfold extract_body;
         rewrite (select_content_misshaped _ _ He); reflexivity
       | intros c Hsel Hc Hn; rewrite extract_outcome;
         rewrite (extract_body_content r c
                    (select_content_selected _ _ Hsel) Hc);
         destruct c; try reflexivity; exfalso; exact (Hn _ eq_refl)
       | exact (selected_or_misshaped r)].
  - intros c Hsel Hc. rewrite extract_outcome. unfold extract_body.
    rewrite (select_content_selected _ _ Hsel). simpl. rewrite Hc. reflexivity.
  - intros s elems ds Hsel Hs Hl Hp. rewrite extract_outcome.
    rewrite (extract_body_content r (JStr s)
               (select_content_selected _ _ Hsel) (truthy_text _ Hs)).
    simpl. rewrite Hl. simpl.
    apply convert_ok in Hp. rewrite Hp. reflexivity.
Qed.

(** C2 (amended).  The content is decoded as it stands; when that fails
    the regular expression takes the part from the first '[' to the last
    ']' of the content and that part is decoded instead.  Prose around
    one array, with no '[' before it and no ']' after it, gives exactly
    that array.  When both attempts fail extraction fails. *)
Theorem parse_content_attempts (content : string) :
  (forall v, json_loads content = Some v ->
     parse_content json_loads (JStr content) = Ok v)
  /\
  (json_loads content = None ->
   forall m, search_bracketed content = Some m ->
     (exists pre mid post,
        content = pre ++ m ++ post /\ m = "[" ++ mid ++ "]" /\
        lacks "[" pre = true /\ lacks "]" post = true)
     /\ parse_content json_loads (JStr content)
        = match json_loads m with
          | Some v => Ok v
          | None => Raise JSONDecodeError
          end)
  /\
  (forall pre mid post v,
     content = pre ++ "[" ++ mid ++ "]" ++ post ->
     lacks "[" pre = true -> lacks "]" post = true ->
     json_loads content = None ->
     json_loads ("[" ++ mid ++ "]") = Some v ->
     parse_content json_loads (JStr content) = Ok v)
  /\
  (json_loads content = None ->
   (forall m, search_bracketed content = Some m -> json_loads m = None) ->
   exists e,
     parse_content json_loads (JStr content) = Raise e /\
     (e = JSONDecodeError \/
      e = Exception "Could not extract JSON from response" None) /\
     forall r, select_content r = Ok (JStr content) -> content <> "" ->
       outcome (extract_destinations json_loads r) = Raise (extraction_failed e)).
Proof.
  split; [|split; [|split]].
  - intros v H. simpl. rewrite H. reflexivity.
  - intros Hc m Hm. split.
    + apply search_bracketed_some. exact Hm.
    + simpl. rewrite Hc, Hm. reflexivity.
  - intros pre mid post v -> Hpre Hpost Hc Hm. unfold parse_content.
    rewrite Hc, (search_bracketed_app _ _ _ Hpre Hpost), Hm. reflexivity.
  - intros Hc Hm.
    assert (E : exists e, parse_content json_loads (JStr content) = Raise e /\
                (e = JSONDecodeError \/
                 e = Exception "Could not extract JSON from response" None)).
    { simpl. rewrite Hc. destruct (search_bracketed content) as [m|] eqn:Hs.
      - rewrite (Hm m eq_refl). eauto.
      - eauto. }
    destruct E as (e & He & Hcase). exists e. repeat split; try assumption.
    intros r Hr Hne. rewrite extract_outcome.
    rewrite (extract_body_content r (JStr content) Hr (truthy_text _ Hne)).
    rewrite He. reflexivity.
Qed.




End TravelProperties.

Example sample_text_decodes :
  JsonText.loads sample_text = Some (JArr [sample_element]).
Proof. vm_compute. reflexivity. Qed.

Lemma sample_populated : populated sample_element sample_destination.
Proof.
  unfold populated, sample_element, sample_destination.
  eexists. split; [reflexivity|]. simpl. repeat split; reflexivity.
Qed.

(** C1 as stated fails: a response whose "output" member carries no
    text and whose "response" member holds a valid destination list has
    a first non-empty place, yet nothing is extracted from it. *)
Lemma shadowed_response_not_extracted :
  first_nonempty (places shadowed_response) = Some (JStr sample_text)
  /\ JsonText.loads sample_text = Some (JArr [sample_element])
  /\ populated sample_element sample_destination
  /\ outcome (extract_destinations JsonText.loads shadowed_response)
     = Raise (extraction_failed no_content).
Proof.
  split; [reflexivity|]. split; [exact sample_text_decodes|].
  split; [exact sample_populated|]. vm_compute. reflexivity.
Qed.

Lemma extract_destinations_wrapper_by_key_witness :
  outcome (extract_destinations JsonText.loads choices_response)
  = Ok [sample_destination]
  /\ outcome (extract_destinations JsonText.loads [("output", JObj [])])
     = Raise (extraction_failed no_content).
Proof.
  split.
  - apply (proj1 (proj2 (extract_destinations_wrapper_by_key JsonText.loads
                           choices_response)) sample_text [sample_element]).
    + exact (sel_choices choices_response
               [("text", JStr sample_text)] [] eq_refl eq_refl eq_refl).
    + discriminate.
    + vm_compute. reflexivity.
    + constructor; [|constructor].
      exists [("name", JStr "Fisher Fine Arts Library");
              ("description", JStr "A red sandstone library.");
              ("recommended_duration", JStr "30 minutes");
              ("best_time_to_visit", JStr "weekdays");
              ("highlights", JArr [JStr "Reading room"; JStr "Architecture"])].
      repeat split; reflexivity.
  - apply (proj1 (extract_destinations_wrapper_by_key JsonText.loads
                    [("output", JObj [])]) (JStr "")).
    + exact (sel_output [("output", JObj [])] [] eq_refl).
    + reflexivity.
Defined.

(** C2 as stated fails: prose that mentions brackets before its one
    array.  The part the expression takes starts at the first '[' of the
    prose, it does not decode, and extraction fails. *)
Lemma prose_with_brackets_not_parsed :
  prose_with_brackets = "Picks [ranked]: " ++ "[1]" ++ ""
  /\ JsonText.loads prose_with_brackets = None
  /\ JsonText.loads "[1]" = Some (JArr [JInt 1])
  /\ forallb (fun s => negb (decodes_to_array JsonText.loads s))
       (segments "Picks [ranked]: ") = true
  /\ search_bracketed prose_with_brackets = Some "[ranked]: [1]"
  /\ parse_content JsonText.loads (JStr prose_with_brackets)
     = Raise JSONDecodeError.
Proof. vm_compute. repeat split; reflexivity. Qed.

Lemma parse_content_attempts_witness :
  parse_content JsonText.loads (JStr prose_with_array)
  = Ok (JArr [JInt 1; JInt 2])
  /\ parse_content JsonText.loads (JStr "[7]") = Ok (JArr [JInt 7]).
Proof.
  split.
  - apply (proj1 (proj2 (proj2 (parse_content_attempts JsonText.loads
                                  prose_with_array)))
             "Here are the stops: " "1, 2" " Enjoy!").
    + reflexivity.
    + reflexivity.
    + reflexivity.
    + vm_compute. reflexivity.
    + vm_compute. reflexivity.
  - apply (proj1 (parse_content_attempts JsonText.loads "[7]")).
    vm_compute. reflexivity.
Defined.



(** ** route_planner.py: parse_route_info *)

Lemma parse_outcome (route : json) :
  outcome (parse_route_info route) = parse_body route.
Proof.
  unfold parse_route_info. destruct (parse_body route); reflexivity.
Qed.

Lemma sum_values_cons (field : string) (leg : json) (rest : list json) (acc : Z) :
  sum_values field (leg :: rest) acc =
  (z <~ leg_value field leg ;; sum_values field rest (acc + z)).
Proof.
  unfold leg_value. simpl.
  destruct (getitem leg field) as [d|]; simpl; [|reflexivity].
  destruct (getitem d "value") as [v|]; simpl; [|reflexivity].
  destruct (as_int v); reflexivity.
Qed.

(** The running total ends at the sum of the legs' values. *)
Lemma sum_values_total (field : string) (legs : list json) :
  forall acc t, sum_values field legs acc = Ok t ->
  exists zs,
    Forall2 (fun leg z => leg_value field leg = Ok z) legs zs /\
    t = acc + total zs.
Proof.
  induction legs as [|leg legs IH]; intros acc t H.
  - simpl in H. injection H as <-. exists []. split; [constructor|].
    simpl. lia.
  - rewrite sum_values_cons in H. apply and_then_ok in H.
    destruct H as (z & Hz & H). destruct (IH _ _ H) as (zs & Hzs & ->).
    exists (z :: zs). split; [constructor; assumption|]. simpl. lia.
Qed.

Lemma leg_steps_instructions (l : list json) :
  leg_steps l =
  (raw <~ instructions l ;; Ok (map clean_instruction raw)).
Proof.
  induction l as [|step l IH]; simpl; [reflexivity|].
  destruct (getitem step "html_instructions") as [i|]; simpl; [|reflexivity].
  destruct i; try reflexivity.
  rewrite IH. destruct (instructions l); reflexivity.
Qed.

(** The steps come leg by leg, and within a leg step by step. *)
Lemma route_steps_concat (legs : list json) :
  forall all, route_steps legs = Ok all ->
  exists texts,
    Forall2 (fun leg l => leg_instructions leg = Ok l) legs texts /\
    all = map clean_instruction (concat texts).
Proof.
  induction legs as [|leg legs IH]; simpl; intros all H.
  - injection H as <-. exists []. split; [constructor | reflexivity].
  - apply and_then_ok in H. destruct H as (s & Hs & H).
    apply and_then_ok in H. destruct H as (l & Hl & H).
    apply and_then_ok in H. destruct H as (here & Hhere & H).
    apply and_then_ok in H. destruct H as (more & Hmore & H).
    injection H as <-.
    rewrite leg_steps_instructions in Hhere.
    apply and_then_ok in Hhere. destruct Hhere as (raw & Hraw & Hhere).
    injection Hhere as <-.
    destruct (IH _ Hmore) as (texts & Htexts & ->).
    exists (raw :: texts). split.
    + constructor; [|assumption].
      unfold leg_instructions. rewrite Hs. simpl. rewrite Hl. simpl. exact Hraw.
    + simpl. rewrite map_app. reflexivity.
Qed.

(** What a successful parse went through. *)
Lemma parse_body_ok (route : json) (info : RouteInfo) :
  parse_body route = Ok info ->
  exists legs total_distance total_duration,
    legs_of route = Ok legs /\
    sum_values "distance" legs 0 = Ok total_distance /\
    sum_values "duration" legs 0 = Ok total_duration /\
    format_distance total_distance = Ok (distance info) /\
    duration info = format_duration total_duration /\
    route_steps legs = Ok (steps info).
Proof.
  unfold parse_body, legs_of. intro H.
  apply and_then_ok in H. destruct H as (l & Hl & H).
  apply and_then_ok in H. destruct H as (legs & Hlegs & H).
  apply and_then_ok in H. destruct H as (td & Htd & H).
  apply and_then_ok in H. destruct H as (tt & Htt & H).
  apply and_then_ok in H. destruct H as (ds & Hds & H).
  apply and_then_ok in H. destruct H as (st & Hst & H).
  apply and_then_ok in H. destruct H as (first & _ & H).
  apply and_then_ok in H. destruct H as (start & _ & H).
  apply and_then_ok in H. destruct H as (last & _ & H).
  apply and_then_ok in H. destruct H as (finish & _ & H).
  injection H as <-. simpl.
  exists legs, td, tt. rewrite Hl. simpl. rewrite Hds. auto 10.
Qed.

Lemma sum_values_of (field : string) (legs : list json) (zs : list Z) :
  Forall2 (fun leg z => leg_value field leg = Ok z) legs zs ->
  forall acc, sum_values field legs acc = Ok (acc + total zs).
Proof.
  induction 1 as [|leg z legs zs Hz _ IH]; intro acc.
  - simpl. rewrite Z.add_0_r. reflexivity.
  - rewrite sum_values_cons, Hz. simpl and_then. rewrite IH.
    simpl total. rewrite Z.add_assoc. reflexivity.
Qed.

Lemma route_steps_of (legs : list json) (texts : list (list string)) :
  Forall2 (fun leg l => leg_instructions leg = Ok l) legs texts ->
  route_steps legs = Ok (map clean_instruction (concat texts)).
Proof.
  induction 1 as [|leg l legs texts Hl _ IH]; simpl.
  - reflexivity.
  - unfold leg_instructions in Hl.
    destruct (getitem leg "steps") as [s|]; [|discriminate Hl].
    simpl in Hl |- *.
    destruct (iter s) as [st|]; [|discriminate Hl].
    simpl in Hl |- *.
    rewrite leg_steps_instructions, Hl. simpl. rewrite IH. simpl.
    rewrite map_app. reflexivity.
Qed.

(** A route of the documented shape is parsed, unless its length in
    kilometres is beyond the floating-point range. *)
Lemma parse_body_well_formed (route : json) (first : json) (rest : list json)
    (ds ts : list Z) (texts : list (list string)) (start finish : json)
    (distance_str : string) :
  let legs := first :: rest in
  getitem route "legs" = Ok (JArr legs) ->
  Forall2 (fun leg d => leg_value "distance" leg = Ok d) legs ds ->
  Forall2 (fun leg t => leg_value "duration" leg = Ok t) legs ts ->
  Forall2 (fun leg l => leg_instructions leg = Ok l) legs texts ->
  getitem first "start_address" = Ok start ->
  getitem (last legs first) "end_address" = Ok finish ->
  format_distance (total ds) = Ok distance_str ->
  parse_body route
  = Ok {| start_location := start; end_location := finish;
          distance := distance_str;
          duration := format_duration (total ts);
          steps := map clean_instruction (concat texts) |}.
Proof.
  intros legs Hlegs Hds Hts Htexts Hstart Hfinish Hfmt.
  unfold parse_body. rewrite Hlegs. cbn [and_then iter].
  rewrite (sum_values_of _ _ _ Hds 0), (sum_values_of _ _ _ Hts 0).
  cbn [and_then]. rewrite !Z.add_0_l, Hfmt. cbn [and_then].
  rewrite (route_steps_of _ _ Htexts). cbn [and_then getitem_int].
  unfold legs at 1. rewrite list_index_head. cbn [and_then].
  rewrite Hstart. cbn [and_then].
  rewrite (list_index_final legs first) by discriminate.
  cbn [and_then]. rewrite Hfinish. reflexivity.
Qed.

Lemma hundredths_nearest (m : positive) (e : Z) :
  let h := hundredths m e in
  0 <= h /\
  (0 <= e -> h = 100 * Zpos m * 2 ^ e) /\
  (e < 0 -> Z.abs (2 * (100 * Zpos m - h * 2 ^ (- e))) <= 2 ^ (- e)).
Proof.
  destruct e as [|p|p]; unfold hundredths; cbv zeta.
  - rewrite Z.pow_0_r. split; [lia|]. split; [intros _; lia | lia].
  - assert (Hd : 0 < 2 ^ Z.pos p) by (apply Z.pow_pos_nonneg; lia).
    split; [nia|]. split; [intros _; lia | lia].
  - change (Z.pow_pos 2 p) with (2 ^ Z.pos p).
    change (- Z.neg p) with (Z.pos p).
    assert (Hd : 0 < 2 ^ Z.pos p) by (apply Z.pow_pos_nonneg; lia).
    set (den := 2 ^ Z.pos p) in *.
    set (num := 100 * Z.pos m).
    assert (Hn : 0 <= num) by (unfold num; lia).
    pose proof (Z.div_mod num den ltac:(lia)) as Hdm.
    pose proof (Z.mod_pos_bound num den Hd) as Hr.
    assert (Hq : 0 <= num / den) by (apply Z.div_pos; lia).
    set (q := num / den) in *. set (r := num mod den) in *.
    clearbody q r. clearbody num den.
    split; [|split; [lia|intros _]].
    + destruct (2 * r ?= den); [destruct (Z.even q)| |]; lia.
    + apply Z.abs_le.
      assert (E0 : num - q * den = r) by (rewrite Hdm; ring).
      assert (E1 : num - (q + 1) * den = r - den) by (rewrite Hdm; ring).
      destruct (2 * r ?= den) eqn:Hc.
      * apply Z.compare_eq in Hc.
        destruct (Z.even q); [rewrite E0 | rewrite E1]; lia.
      * apply -> Z.compare_lt_iff in Hc. rewrite E0. lia.
      * apply -> Z.compare_gt_iff in Hc. rewrite E1. lia.
Qed.

(** C3.  The summary of a parsed route carries the sums of the legs'
    distance and duration values: the distance as integer metres below
    1000 and as kilometres with two decimals from 1000 on, the duration
    as minutes and seconds by division and remainder by 60; a route of
    the documented shape is parsed to such a summary.  Two decimals are
    the hundredths nearest to the binary quotient.  Legs of 1500 m and
    125 s read "1.50 km" and "2 min 5 sec"; 500 m reads "500 m". *)
Theorem parse_route_info_totals :
  (forall route info,
     outcome (parse_route_info route) = Ok info ->
     exists legs ds ts,
       legs_of route = Ok legs /\
       Forall2 (fun leg d => leg_value "distance" leg = Ok d) legs ds /\
       Forall2 (fun leg t => leg_value "duration" leg = Ok t) legs ts /\
       (total ds < 1000 -> distance info = str_int (total ds) ++ " m") /\
       (1000 <= total ds ->
        exists q, truediv (total ds) 1000 = Ok q /\
                  distance info = format_2f q ++ " km") /\
       duration info
       = str_int (total ts / 60) ++ " min " ++ str_int (total ts mod 60) ++ " sec")
  /\
  (forall route first rest ds ts texts start finish text,
     getitem route "legs" = Ok (JArr (first :: rest)) ->
     Forall2 (fun leg d => leg_value "distance" leg = Ok d) (first :: rest) ds ->
     Forall2 (fun leg t => leg_value "duration" leg = Ok t) (first :: rest) ts ->
     Forall2 (fun leg l => leg_instructions leg = Ok l) (first :: rest) texts ->
     getitem first "start_address" = Ok start ->
     getitem (last (first :: rest) first) "end_address" = Ok finish ->
     format_distance (total ds) = Ok text ->
     exists info,
       parse_route_info route = ([], Ok info) /\
       distance info = text /\
       duration info = format_duration (total ts))
  /\
  (forall s m e,
     exists h,
       format_2f (S754_finite s m e)
       = (if s then "-" else "") ++ str_int (h / 100) ++ "."
           ++ digit (h / 10 mod 10) ++ digit (h mod 10) /\
       0 <= h /\
       (0 <= e -> h = 100 * Zpos m * 2 ^ e) /\
       (e < 0 -> Z.abs (2 * (100 * Zpos m - h * 2 ^ (- e))) <= 2 ^ (- e)))
  /\
  format_distance 1500 = Ok "1.50 km" /\
  format_duration 125 = "2 min 5 sec" /\
  format_distance 500 = Ok "500 m" /\
  outcome (parse_route_info sample_route)
  = Ok {| start_location := JStr "College Hall";
          end_location := JStr "Huntsman Hall";
          distance := "1.50 km";
          duration := "2 min 5 sec";
          steps := ["Head west on Locust Walk"; "Turn left - onto Main St";
                    "Continue <wbr/>straight"] |}.
Proof.
  split; [|split; [|split; [|repeat split; vm_compute; reflexivity]]];
    [| intros route first rest ds ts texts start finish text
         Hl Hd Ht Hx Hs Hf Hfmt;
       unfold parse_route_info;
       rewrite (parse_body_well_formed _ _ _ _ _ _ _ _ _ Hl Hd Ht Hx Hs Hf Hfmt);
       eexists; split; [reflexivity | split; reflexivity] |].
  - intros route info H. rewrite parse_outcome in H.
    destruct (parse_body_ok _ _ H)
      as (legs & td & tt & Hlegs & Hd & Ht & Hfd & Hdur & _).
    destruct (sum_values_total _ _ _ _ Hd) as (ds & Hds & ->).
    destruct (sum_values_total _ _ _ _ Ht) as (ts & Hts & ->).
    exists legs, ds, ts. rewrite !Z.add_0_l in *.
    split; [assumption|]. split; [assumption|]. split; [assumption|].
    unfold format_distance in Hfd.
    split; [|split].
    + intro Hlt. apply Z.leb_gt in Hlt. rewrite Hlt in Hfd.
      injection Hfd as <-. reflexivity.
    + intro Hle. apply Z.leb_le in Hle. rewrite Hle in Hfd.
      apply and_then_ok in Hfd. destruct Hfd as (q & Hq & Hfd).
      injection Hfd as <-. exists q. split; [assumption | reflexivity].
    + exact Hdur.
  - intros s m e. exists (hundredths m e).
    split; [reflexivity|]. exact (hundredths_nearest m e).
Qed.

(** The quotient is the binary one: 1.005 lies just below the tie and
    reads 1.00, while 1.125 and 1.375 are exact ties and go to the even
    hundredth. *)
Example format_distance_ties :
  format_distance 1005 = Ok "1.00 km" /\
  format_distance 1125 = Ok "1.12 km" /\
  format_distance 1375 = Ok "1.38 km" /\
  format_distance 999 = Ok "999 m" /\
  format_distance 1000 = Ok "1.00 km".
Proof. vm_compute. repeat split; reflexivity. Qed.

Lemma parse_route_info_totals_witness :
  exists legs ds ts,
    legs_of sample_route = Ok legs /\
    Forall2 (fun leg d => leg_value "distance" leg = Ok d) legs ds /\
    Forall2 (fun leg t => leg_value "duration" leg = Ok t) legs ts /\
    (total ds < 1000 ->
     "1.50 km" = str_int (total ds) ++ " m") /\
    (1000 <= total ds ->
     exists q, truediv (total ds) 1000 = Ok q /\
               "1.50 km" = format_2f q ++ " km") /\
    "2 min 5 sec"
    = str_int (total ts / 60) ++ " min " ++ str_int (total ts mod 60) ++ " sec".
Proof.
  apply (proj1 parse_route_info_totals sample_route
           {| start_location := JStr "College Hall";
              end_location := JStr "Huntsman Hall";
              distance := "1.50 km";
              duration := "2 min 5 sec";
              steps := ["Head west on Locust Walk"; "Turn left - onto Main St";
                        "Continue <wbr/>straight"] |}).
  vm_compute. reflexivity.
Defined.

(** ** str.replace *)


Lemma replace_from_0 (old new : string) (c : ascii) (s : string) :
  replace_from old new 0 (String c s) =
  if starts_with old (String c s)
  then new ++ replace_from old new (String.length old - 1)%nat s
  else String c (replace_from old new 0 s).
Proof. reflexivity. Qed.

Lemma replace_from_S (old new : string) (k : nat) (c : ascii) (s : string) :
  replace_from old new (S k) (String c s) = replace_from old new k s.
Proof. reflexivity. Qed.

Lemma replace_skip (old new : string) (c : ascii) (s : string) :
  starts_with old (String c s) = false ->
  replace_from old new 0 (String c s) = String c (replace_from old new 0 s).
Proof. intro H. rewrite replace_from_0, H. reflexivity. Qed.

Lemma replace_hit (old new : string) (c : ascii) (s : string) :
  starts_with old (String c s) = true ->
  replace_from old new 0 (String c s)
  = new ++ replace_from old new (String.length old - 1)%nat s.
Proof. intro H. rewrite replace_from_0, H. reflexivity. Qed.

(** A stretch without the first character of [old] is copied. *)
Lemma replace_pass (c : ascii) (old' new a s : string) :
  lacks c a = true ->
  replace_from (String c old') new 0 (a ++ s)
  = a ++ replace_from (String c old') new 0 s.
Proof.
  induction a as [|x a IH]; intro H.
  - reflexivity.
  - simpl in H. apply andb_true_iff in H. destruct H as [Hx H].
    apply negb_true_iff, Ascii.eqb_neq in Hx.
    change (String x a ++ s) with (String x (a ++ s)).
    rewrite replace_skip.
    + rewrite (IH H). reflexivity.
    + simpl. apply andb_false_iff. left.
      apply Ascii.eqb_neq. congruence.
Qed.

(** A text in which [old] does not occur is returned as it is. *)
Lemma replace_absent (old new s : string) :
  occurs old s = false -> replace old new s = s.
Proof.
  destruct old as [|c old'].
  - destruct s; discriminate.
  - unfold replace. induction s as [|x s IH]; intro H.
    + reflexivity.
    + cbn [occurs] in H. apply orb_false_iff in H. destruct H as [Hp Ho].
      rewrite (replace_skip _ _ _ _ Hp), (IH Ho). reflexivity.
Qed.

(** One call of [replace] with a concrete [old], run over the concrete
    characters at the head of the text. *)
Ltac walk_replace :=
  repeat first
    [ rewrite replace_skip by reflexivity
    | rewrite replace_hit by reflexivity;
      cbn [String.length Nat.sub]; rewrite ?replace_from_S ].

(** Bold text followed by the styled wrapper, in general. *)
Lemma clean_bold_then_wrapper (a b : string) :
  lacks "<" a = true -> lacks "<" b = true ->
  clean_instruction ("<b>" ++ a ++ "</b>" ++ div_open ++ b ++ "</div>")
  = a ++ " - " ++ b.
Proof.
  intros Ha Hb. unfold clean_instruction, replace, div_open, dquote.
  cbn [append].
  (* <b> *)
  walk_replace. cbn [append].
  rewrite (replace_pass _ _ _ a _ Ha). walk_replace.
  rewrite (replace_pass _ _ _ b _ Hb). walk_replace.
  cbn [replace_from].
  (* </b> *)
  rewrite (replace_pass _ _ _ a _ Ha). walk_replace. cbn [append].
  walk_replace.
  rewrite (replace_pass _ _ _ b _ Hb). walk_replace.
  cbn [replace_from].
  (* the wrapper *)
  rewrite (replace_pass _ _ _ a _ Ha). walk_replace. cbn [append].
  rewrite (replace_pass _ _ _ b _ Hb). walk_replace.
  cbn [replace_from].
  (* </div> *)
  rewrite (replace_pass _ _ _ a _ Ha). walk_replace.
  rewrite (replace_pass _ _ _ b _ Hb). walk_replace. cbn [append].
  cbn [replace_from]. rewrite append_empty_r. reflexivity.
Qed.

(** C7.  The steps of a parsed route are the instruction texts of its
    legs, leg after leg and step after step, each with the four markup
    tokens handled: the bold tags removed, the styled wrapper replaced by
    " - ", the closing div removed; a route of the documented shape is
    parsed to these steps.  A text holding none of the four tokens,
    whatever other markup it has, is kept as it is.  Bold text followed
    by the wrapper reads "a - b", as in "Turn left - onto Main St". *)
Theorem parse_route_info_steps :
  (forall route info,
     outcome (parse_route_info route) = Ok info ->
     exists legs texts,
       legs_of route = Ok legs /\
       Forall2 (fun leg l => leg_instructions leg = Ok l) legs texts /\
       steps info = map clean_instruction (concat texts))
  /\
  (forall route first rest ds ts texts start finish text,
     getitem route "legs" = Ok (JArr (first :: rest)) ->
     Forall2 (fun leg d => leg_value "distance" leg = Ok d) (first :: rest) ds ->
     Forall2 (fun leg t => leg_value "duration" leg = Ok t) (first :: rest) ts ->
     Forall2 (fun leg l => leg_instructions leg = Ok l) (first :: rest) texts ->
     getitem first "start_address" = Ok start ->
     getitem (last (first :: rest) first) "end_address" = Ok finish ->
     format_distance (total ds) = Ok text ->
     exists info,
       parse_route_info route = ([], Ok info) /\
       steps info = map clean_instruction (concat texts))
  /\
  (forall s,
     occurs "<b>" s = false -> occurs "</b>" s = false ->
     occurs div_open s = false -> occurs "</div>" s = false ->
     clean_instruction s = s)
  /\
  (forall a b,
     lacks "<" a = true -> lacks "<" b = true ->
     clean_instruction ("<b>" ++ a ++ "</b>" ++ div_open ++ b ++ "</div>")
     = a ++ " - " ++ b)
  /\
  clean_instruction ("<b>Turn left</b>" ++ div_open ++ "onto Main St</div>")
  = "Turn left - onto Main St"
  /\
  clean_instruction "Continue <wbr/>straight" = "Continue <wbr/>straight".
Proof.
  split; [|split; [|split; [|split; [|split]]]].
  - intros route info H. rewrite parse_outcome in H.
    destruct (parse_body_ok _ _ H)
      as (legs & td & tt & Hlegs & _ & _ & _ & _ & Hsteps).
    destruct (route_steps_concat _ _ Hsteps) as (texts & Htexts & E).
    exists legs, texts. auto.
  - intros route first rest ds ts texts start finish text
      Hl Hd Ht Hx Hs Hf Hfmt.
    unfold parse_route_info.
    rewrite (parse_body_well_formed _ _ _ _ _ _ _ _ _ Hl Hd Ht Hx Hs Hf Hfmt).
    eexists. split; reflexivity.
  - intros s H1 H2 H3 H4. unfold clean_instruction.
    rewrite (replace_absent _ _ _ H1), (replace_absent _ _ _ H2).
    rewrite (replace_absent _ _ _ H3), (replace_absent _ _ _ H4).
    reflexivity.
  - exact clean_bold_then_wrapper.
  - vm_compute. reflexivity.
  - vm_compute. reflexivity.
Qed.

Lemma parse_route_info_steps_witness :
  (exists legs texts,
     legs_of sample_route = Ok legs /\
     Forall2 (fun leg l => leg_instructions leg = Ok l) legs texts /\
     ["Head west on Locust Walk"; "Turn left - onto Main St";
      "Continue <wbr/>straight"]
     = map clean_instruction (concat texts))
  /\ clean_instruction "Head <i>north</i>" = "Head <i>north</i>"
  /\ clean_instruction ("<b>Turn left</b>" ++ div_open ++ "onto Main St</div>")
     = "Turn left" ++ " - " ++ "onto Main St".
Proof.
  split; [|split].
  - apply (proj1 parse_route_info_steps sample_route
             {| start_location := JStr "College Hall";
                end_location := JStr "Huntsman Hall";
                distance := "1.50 km";
                duration := "2 min 5 sec";
                steps := ["Head west on Locust Walk";
                          "Turn left - onto Main St";
                          "Continue <wbr/>straight"] |}).
    vm_compute. reflexivity.
  - apply (proj1 (proj2 (proj2 parse_route_info_steps)) "Head <i>north</i>");
      vm_compute; reflexivity.
  - apply (proj1 (proj2 (proj2 (proj2 parse_route_info_steps)))
             "Turn left" "onto Main St"); reflexivity.
Defined.

(** ** route_planner.py: calculate_route and plan_route *)

Lemma length_two_split {A} (l : list A) :
  (2 <= length l)%nat ->
  exists first interior last, l = first :: (interior ++ [last])%list.
Proof.
  destruct l as [|a l]; simpl; intro H; [lia|].
  destruct (exists_last (l := l)) as (mid & b & ->).
  - destruct l; [simpl in H; lia | discriminate].
  - exists a, mid, b. reflexivity.
Qed.

Lemma list_slice_interior {A} (a b : A) (mid : list A) :
  list_slice (a :: mid ++ [b])%list 1 (-1) = mid.
Proof.
  unfold list_slice.
  replace (1 <? 0) with false by reflexivity.
  replace (-1 <? 0) with true by reflexivity.
  assert (L : Z.of_nat (length (a :: mid ++ [b])%list) = Z.of_nat (length mid) + 2).
  { simpl length. rewrite length_app. simpl. lia. }
  rewrite L.
  replace (Z.to_nat (Z.min 1 (Z.of_nat (length mid) + 2))) with 1%nat by lia.
  replace (Z.to_nat (Z.max (-1 + (Z.of_nat (length mid) + 2)) 0
                     - Z.min 1 (Z.of_nat (length mid) + 2)))
    with (length mid) by lia.
  simpl. rewrite firstn_app, firstn_all, Nat.sub_diag. simpl.
  apply app_nil_r.
Qed.

Lemma requests_app (t1 t2 : list event) :
  requests (t1 ++ t2)%list = (requests t1 ++ requests t2)%list.
Proof. apply filter_app. Qed.

Lemma requests_print (args : list printed) (t : list event) :
  requests (Print args :: t) = requests t.
Proof. reflexivity. Qed.


Lemma parse_route_info_quiet (route : json) :
  requests (trace (parse_route_info route)) = [].
Proof.
  unfold parse_route_info. destruct (parse_body route); reflexivity.
Qed.

Section RouteProperties.

Variable directions :
  string -> string -> list string -> bool -> string -> string -> result json.

Lemma calculate_route_few (locations : list string) (optimize : bool) :
  (length locations < 2)%nat ->
  calculate_route directions locations optimize
  = ([Print [PStr "Route calculation error: "; PExc need_two]], Raise need_two).
Proof.
  intro H. unfold calculate_route.
  assert (E : (Z.of_nat (length locations) <? 2) = true)
    by (apply Z.ltb_lt; lia).
  rewrite E. reflexivity.
Qed.

Lemma waypoints_interior (first last : string) (interior : list string) :
  (if 2 <? Z.of_nat (length (first :: interior ++ [last])%list)
   then list_slice (first :: interior ++ [last])%list 1 (-1) else [])
  = interior.
Proof.
  destruct (2 <? Z.of_nat (length (first :: interior ++ [last])%list)) eqn:C.
  - apply list_slice_interior.
  - apply Z.ltb_ge in C. simpl length in C. rewrite length_app in C.
    destruct interior; [reflexivity | simpl in C; lia].
Qed.

(** With two locations or more: one request, from the first location to
    the last through the ones between. *)
Lemma calculate_route_request (first last : string) (interior : list string)
    (optimize : bool) :
  requests (trace (calculate_route directions
                     (first :: interior ++ [last])%list optimize))
  = [Directions first last interior optimize "walking" "metric"].
Proof.
  unfold calculate_route.
  assert (E : (Z.of_nat (length (first :: interior ++ [last])%list) <? 2) = false).
  { apply Z.ltb_ge. simpl length. rewrite length_app. simpl. lia. }
  rewrite E. unfold index_str.
  rewrite list_index_head, list_index_last.
  cbn zeta. rewrite waypoints_interior.
  destruct (directions first last interior optimize "walking" "metric")
    as [v|e] eqn:D.
  - destruct (truthy v) eqn:T.
    + destruct (getitem_int v 0) as [route|e] eqn:G;
        destruct interior; cbn; rewrite D; cbn; rewrite T; cbn; rewrite G;
        reflexivity.
    + destruct interior; cbn; rewrite D; cbn; rewrite T; reflexivity.
  - destruct interior; cbn; rewrite D; reflexivity.
Qed.

Lemma plan_route_request (first last : string) (interior : list string) :
  requests (trace (plan_route directions (first :: interior ++ [last])%list))
  = [Directions first last interior true "walking" "metric"].
Proof.
  pose proof (calculate_route_request first last interior true) as H.
  unfold plan_route, try_except.
  destruct (calculate_route directions (first :: interior ++ [last])%list true)
    as [t [route|e]] eqn:C; unfold trace in H; cbn [fst] in H.
  - pose proof (parse_route_info_quiet route) as Q.
    cbn -[requests parse_route_info get_route_url].
    destruct (parse_route_info route) as [t' [info|e]];
      unfold trace in Q; cbn [fst] in Q;
      cbn -[requests get_route_url];
      rewrite ?requests_print, ?requests_app, ?H, ?Q; reflexivity.
  - cbn -[requests]. rewrite ?requests_print, ?requests_app, H. reflexivity.
Qed.

(** C4.  With fewer than two locations the route calculation, and the
    planning built on it, fail with "Need at least 2 locations to
    calculate a route" and no directions request is issued.  With two or
    more, the one request issued goes from the first location to the last
    with the locations between them as waypoints. *)
Theorem calculate_route_endpoints (locations : list string) (optimize : bool) :
  ((length locations < 2)%nat ->
   outcome (calculate_route directions locations optimize) = Raise need_two /\
   requests (trace (calculate_route directions locations optimize)) = [] /\
   outcome (plan_route directions locations) = Raise need_two /\
   requests (trace (plan_route directions locations)) = [])
  /\
  ((2 <= length locations)%nat ->
   exists first interior last,
     locations = (first :: interior ++ [last])%list /\
     requests (trace (calculate_route directions locations optimize))
     = [Directions first last interior optimize "walking" "metric"] /\
     requests (trace (plan_route directions locations))
     = [Directions first last interior true "walking" "metric"]).
Proof.
  split.
  - intro H. unfold plan_route.
    rewrite !(calculate_route_few _ _ H). repeat split.
  - intro H. destruct (length_two_split _ H) as (a & mid & b & ->).
    exists a, mid, b. split; [reflexivity|].
    split; [apply calculate_route_request | apply plan_route_request].
Qed.

End RouteProperties.

Lemma calculate_route_endpoints_witness :
  (outcome (calculate_route (fun _ _ _ _ _ _ => Ok (JArr [sample_route]))
              ["College Hall"] true) = Raise need_two /\
   requests (trace (calculate_route (fun _ _ _ _ _ _ => Ok (JArr [sample_route]))
                      ["College Hall"] true)) = [] /\
   outcome (plan_route (fun _ _ _ _ _ _ => Ok (JArr [sample_route]))
              ["College Hall"]) = Raise need_two /\
   requests (trace (plan_route (fun _ _ _ _ _ _ => Ok (JArr [sample_route]))
                      ["College Hall"])) = [])
  /\
  (exists first interior last,
     ["College Hall"; "Fisher Fine Arts Library"; "Huntsman Hall"]
     = (first :: interior ++ [last])%list /\
     requests (trace (calculate_route (fun _ _ _ _ _ _ => Ok (JArr [sample_route]))
                        ["College Hall"; "Fisher Fine Arts Library"; "Huntsman Hall"]
                        true))
     = [Directions first last interior true "walking" "metric"] /\
     requests (trace (plan_route (fun _ _ _ _ _ _ => Ok (JArr [sample_route]))
                        ["College Hall"; "Fisher Fine Arts Library"; "Huntsman Hall"]))
     = [Directions first last interior true "walking" "metric"]).
Proof.
  split.
  - apply (proj1 (calculate_route_endpoints
                    (fun _ _ _ _ _ _ => Ok (JArr [sample_route]))
                    ["College Hall"] true)).
    simpl. lia.
  - apply (proj2 (calculate_route_endpoints
                    (fun _ _ _ _ _ _ => Ok (JArr [sample_route]))
                    ["College Hall"; "Fisher Fine Arts Library"; "Huntsman Hall"]
                    true)).
    simpl. lia.
Defined.

(** ** image_recognition_workflow.py: extract_description *)

Lemma description_body_content (r : dict) (c : json) :
  content_at r c ->
  description_body r =
  if negb (truthy c) then Raise no_content
  else match c with
       | JArr items =>
           joined <~ join " " (text_contents items) ;; Ok (strip joined)
       | JStr s => Ok (strip s)
       | _ => Raise AttributeError
       end.
Proof.
  intros (output & first & rest & message & Ho & Hc & Hm & Hcont).
  unfold description_body, dict_get. rewrite Ho. cbn [py_get and_then].
  rewrite Hc. cbn [truthy negb getitem_int]. rewrite list_index_head.
  cbn [py_get and_then]. rewrite Hm. cbn [py_get and_then]. rewrite Hcont.
  reflexivity.
Qed.

Lemma all_str_texts (texts : list string) : all_str (map JStr texts) = Ok texts.
Proof.
  induction texts as [|t texts IH]; simpl; [reflexivity|].
  rewrite IH. reflexivity.
Qed.

(** The loop keeps the fragments' texts and passes over the rest. *)
Lemma text_contents_kept (items : list json) (texts : list string) :
  kept items texts -> text_contents items = map JStr texts.
Proof.
  induction 1 as [|item t items texts Hf _ IH|item items texts Hr _ IH]; simpl.
  - reflexivity.
  - destruct Hf as [->|(d & -> & Ht)]; [|rewrite Ht]; rewrite IH; reflexivity.
  - destruct item as [ | | | | |d]; try discriminate Hr; try exact IH.
    unfold recognized, mem in Hr.
    destruct (lookup "text" d); [discriminate Hr | exact IH].
Qed.

Lemma kept_fragments (items : list json) (texts : list string) :
  Forall2 fragment items texts -> kept items texts.
Proof. induction 1; constructor; assumption. Qed.

Lemma text_contents_skip (before after : list json) (u : json) :
  recognized u = false ->
  text_contents (before ++ u :: after) = text_contents (before ++ after).
Proof.
  intro Hu. induction before as [|x before IH]; simpl.
  - destruct u as [ | | | | |d]; try discriminate Hu; try reflexivity.
    unfold recognized, mem in Hu.
    destruct (lookup "text" d); [discriminate Hu | reflexivity].
  - rewrite IH. reflexivity.
Qed.

Lemma extract_description_ok (r : dict) (s : string) :
  description_body r = Ok s -> extract_description r = ([], Ok s).
Proof. unfold extract_description. intros ->. reflexivity. Qed.

Lemma extract_description_outcome (r : dict) :
  outcome (extract_description r) =
  match description_body r with
  | Ok s => Ok s
  | Raise e => Raise (if lookup_failure e then failed_lookup e else unexpected e)
  end.
Proof.
  unfold extract_description.
  destruct (description_body r) as [s|e]; [reflexivity|].
  destruct e; reflexivity.
Qed.

Lemma nonempty_truthy (items : list json) : items <> [] -> truthy (JArr items) = true.
Proof. destruct items; [contradiction | reflexivity]. Qed.

Lemma description_of_list (r : dict) (items : list json) (texts : list string) :
  content_at r (JArr items) -> items <> [] -> kept items texts ->
  description_body r = Ok (strip (String.concat " " texts)).
Proof.
  intros Hc Hne Hk. rewrite (description_body_content _ _ Hc).
  rewrite (nonempty_truthy _ Hne). cbn [negb].
  unfold join. rewrite (text_contents_kept _ _ Hk), all_str_texts. reflexivity.
Qed.

(** C6.  The description is read from output.choices[0].message.content:
    a string content gives its text, a list content gives the texts of
    its fragments, bare strings and text members alike, joined in order
    with one space between them; in both cases white space at the two
    ends is stripped.  The list [{"text":"A"}, "B", {"text":"C"}] gives
    "A B C". *)
Theorem extract_description_content :
  (forall r c,
     content_at r c ->
     (forall s, c = JStr s -> s <> "" ->
        extract_description r = ([], Ok (strip s)))
     /\
     (forall items texts,
        c = JArr items -> items <> [] -> Forall2 fragment items texts ->
        extract_description r = ([], Ok (strip (String.concat " " texts)))))
  /\
  extract_description (response_with abc_content) = ([], Ok "A B C").
Proof.
  split; [|reflexivity].
  intros r c Hc. split.
  - intros s -> Hs. apply extract_description_ok.
    rewrite (description_body_content _ _ Hc), (truthy_text _ Hs). reflexivity.
  - intros items texts -> Hne Hf. apply extract_description_ok.
    apply (description_of_list r items texts Hc Hne).
    apply kept_fragments. exact Hf.
Qed.

Lemma response_with_content (c : json) : content_at (response_with c) c.
Proof.
  unfold content_at, response_with.
  do 4 eexists. repeat split; reflexivity.
Qed.

Lemma extract_description_content_witness :
  extract_description (response_with (JStr " Fisher Fine Arts Library. "))
  = ([], Ok (strip " Fisher Fine Arts Library. "))
  /\ extract_description (response_with abc_content)
     = ([], Ok (strip (String.concat " " ["A"; "B"; "C"]))).
Proof.
  split.
  - apply (proj1 (proj1 extract_description_content
                    (response_with (JStr " Fisher Fine Arts Library. "))
                    (JStr " Fisher Fine Arts Library. ")
                    (response_with_content _))).
    + reflexivity.
    + discriminate.
  - apply (proj2 (proj1 extract_description_content
                    (response_with abc_content) abc_content
                    (response_with_content _))
             [JObj [("text", JStr "A")]; JStr "B"; JObj [("text", JStr "C")]]).
    + reflexivity.
    + discriminate.
    + apply Forall2_cons; [right; eexists; split; reflexivity|].
      apply Forall2_cons; [left; reflexivity|].
      apply Forall2_cons; [right; eexists; split; reflexivity|].
      apply Forall2_nil.
Defined.

(** C10.  In a list content an item that is neither a bare string nor an
    object with a text member is passed over: the description is made of
    the texts of the fragments alone, and no such item changes whether
    extraction succeeds or what it returns or raises.  A list of such
    items only gives the empty description. *)
Theorem extract_description_skips_unrecognized :
  (forall r items texts,
     content_at r (JArr items) -> items <> [] -> kept items texts ->
     extract_description r = ([], Ok (strip (String.concat " " texts))))
  /\
  (forall r r' before after u,
     content_at r (JArr (before ++ u :: after)) ->
     content_at r' (JArr (before ++ after)) ->
     recognized u = false -> (before ++ after)%list <> [] ->
     outcome (extract_description r) = outcome (extract_description r'))
  /\
  (forall r items,
     content_at r (JArr items) -> items <> [] ->
     forallb (fun item => negb (recognized item)) items = true ->
     extract_description r = ([], Ok "")).
Proof.
  split; [|split].
  - intros r items texts Hc Hne Hk. apply extract_description_ok.
    exact (description_of_list r items texts Hc Hne Hk).
  - intros r r' before after u Hc Hc' Hu Hne.
    rewrite !extract_description_outcome.
    rewrite (description_body_content _ _ Hc), (description_body_content _ _ Hc').
    rewrite (nonempty_truthy _ Hne).
    rewrite (nonempty_truthy (before ++ u :: after))
      by (destruct before; discriminate).
    rewrite (text_contents_skip _ _ _ Hu). reflexivity.
  - intros r items Hc Hne Hall. apply extract_description_ok.
    rewrite (description_of_list r items [] Hc Hne); [reflexivity|].
    clear Hc Hne. induction items as [|x items IH]; [constructor|].
    simpl in Hall. apply andb_true_iff in Hall. destruct Hall as [Hx Hall].
    apply kept_skip; [apply negb_true_iff; exact Hx | exact (IH Hall)].
Qed.

Lemma extract_description_skips_unrecognized_witness :
  extract_description
    (response_with (JArr [JObj [("image", JStr "x.jpg")]; JStr "College Hall";
                          JInt 3; JObj [("text", JStr "stands here.")]]))
  = ([], Ok (strip (String.concat " " ["College Hall"; "stands here."])))
  /\ extract_description (response_with (JArr [JNull; JObj [("image", JStr "x")]]))
     = ([], Ok "").
Proof.
  split.
  - apply (proj1 extract_description_skips_unrecognized _ _ _
             (response_with_content _)).
    + discriminate.
    + apply kept_skip; [reflexivity|].
      apply kept_fragment; [left; reflexivity|].
      apply kept_skip; [reflexivity|].
      apply kept_fragment; [right; eexists; split; reflexivity|].
      apply kept_nil.
  - apply (proj2 (proj2 extract_description_skips_unrecognized) _ _
             (response_with_content _)).
    + discriminate.
    + reflexivity.
Defined.

Lemma no_choices_body (r : dict) :
  no_choices r -> description_body r = Raise no_choices_found.
Proof.
  intros [Ho | output Ho Hc | output c Ho Hc Hf];
    unfold description_body, dict_get; rewrite Ho; cbn [py_get and_then].
  - reflexivity.
  - rewrite Hc. reflexivity.
  - rewrite Hc, Hf. reflexivity.
Qed.

Lemma empty_content_body (r : dict) :
  empty_content r -> description_body r = Raise no_content.
Proof.
  intros [output first rest Ho Hc Hm
         | output first rest message Ho Hc Hm Hcont
         | output first rest message c Ho Hc Hm Hcont Hf];
    unfold description_body, dict_get; rewrite Ho; cbn [py_get and_then];
    rewrite Hc; cbn [truthy negb getitem_int]; rewrite list_index_head;
    cbn [py_get and_then]; rewrite Hm; cbn [py_get and_then].
  - reflexivity.
  - rewrite Hcont. reflexivity.
  - rewrite Hcont, Hf. reflexivity.
Qed.

Lemma extract_description_raise (r : dict) (e : exc) :
  description_body r = Raise e ->
  extract_description r =
  if lookup_failure e then ([], Raise (failed_lookup e))
  else ([raw_dump r], Raise (unexpected e)).
Proof.
  unfold extract_description. intros ->. destruct e; reflexivity.
Qed.

(** C9 (amended).  With no choices under output, or with choices and
    nothing in the first choice's message, extraction prints the raw
    response and fails with the "No choices found" and "No content
    found" errors.  A deviation that ends in a failed key or index
    lookup, such as choices given as an object, fails without printing
    the raw response; every other deviation fails after printing it. *)
Theorem extract_description_failures (r : dict) :
  (no_choices r ->
   extract_description r = ([raw_dump r], Raise (unexpected no_choices_found)))
  /\
  (empty_content r ->
   extract_description r = ([raw_dump r], Raise (unexpected no_content)))
  /\
  (forall e, description_body r = Raise e ->
     extract_description r =
     if lookup_failure e then ([], Raise (failed_lookup e))
     else ([raw_dump r], Raise (unexpected e)))
  /\
  (forall output member members,
     lookup "output" r = Some (JObj output) ->
     lookup "choices" output = Some (JObj (member :: members)) ->
     extract_description r = ([], Raise (failed_lookup (KeyError (JInt 0)))))
  /\
  (forall output first rest,
     lookup "output" r = Some (JObj output) ->
     lookup "choices" output = Some (JArr (first :: rest)) ->
     (forall d, first <> JObj d) ->
     extract_description r = ([raw_dump r], Raise (unexpected AttributeError)))
  /\
  (forall v,
     lookup "output" r = Some v -> (forall d, v <> JObj d) ->
     extract_description r = ([raw_dump r], Raise (unexpected AttributeError)))
  /\
  (forall x,
     outcome (extract_description r) = Raise x ->
     exists e, description_body r = Raise e /\
               x = if lookup_failure e then failed_lookup e else unexpected e).
Proof.
  split; [|split; [|split; [|split; [|split; [|split]]]]].
  - intro H. rewrite (extract_description_raise _ _ (no_choices_body _ H)).
    reflexivity.
  - intro H. rewrite (extract_description_raise _ _ (empty_content_body _ H)).
    reflexivity.
  - exact (extract_description_raise r).
  - intros output member members Ho Hc.
    rewrite (extract_description_raise r (KeyError (JInt 0))); [reflexivity|].
    unfold description_body, dict_get. rewrite Ho. cbn [py_get and_then].
    rewrite Hc. reflexivity.
  - intros output first rest Ho Hc Hfirst.
    rewrite (extract_description_raise r AttributeError); [reflexivity|].
    unfold description_body, dict_get. rewrite Ho. cbn [py_get and_then].
    rewrite Hc. cbn [truthy negb getitem_int]. rewrite list_index_head.
    cbn [and_then]. destruct first; try reflexivity.
    exfalso. exact (Hfirst _ eq_refl).
  - intros v Ho Hv.
    rewrite (extract_description_raise r AttributeError); [reflexivity|].
    unfold description_body, dict_get. rewrite Ho.
    destruct v; try reflexivity. exfalso. exact (Hv _ eq_refl).
  - intros x H. rewrite extract_description_outcome in H.
    destruct (description_body r) as [s|e]; [discriminate H|].
    injection H as <-. exists e. split; reflexivity.
Qed.

Lemma extract_description_failures_witness :
  extract_description [("request_id", JStr "0")]
  = ([raw_dump [("request_id", JStr "0")]], Raise (unexpected no_choices_found))
  /\ extract_description (response_with (JStr ""))
     = ([raw_dump (response_with (JStr ""))], Raise (unexpected no_content))
  /\ extract_description keyed_choices_response
     = ([], Raise (failed_lookup (KeyError (JInt 0)))).
Proof.
  split; [|split].
  - apply (proj1 (extract_description_failures [("request_id", JStr "0")])).
    apply nc_no_output. reflexivity.
  - apply (proj1 (proj2 (extract_description_failures (response_with (JStr ""))))).
    eapply ec_empty; reflexivity.
  - eapply (proj1 (proj2 (proj2 (proj2
              (extract_description_failures keyed_choices_response)))));
      reflexivity.
Defined.

(** C9 as stated fails: choices given as an object keyed by position is a
    deviation other than missing choices or empty content, and extraction
    fails on it without printing the raw response. *)
Lemma keyed_choices_fail_silently :
  (no_choices keyed_choices_response -> False)
  /\ (empty_content keyed_choices_response -> False)
  /\ extract_description keyed_choices_response
     = ([], Raise (failed_lookup (KeyError (JInt 0))))
  /\ (In (raw_dump keyed_choices_response)
        (trace (extract_description keyed_choices_response)) -> False).
Proof.
  split; [|split; [|split]].
  - intros [Ho | output Ho Hc | output c Ho Hc Hf]; cbn in Ho;
      try discriminate Ho; injection Ho as <-; cbn in Hc;
      try discriminate Hc; injection Hc as <-; discriminate Hf.
  - intros [output first rest Ho Hc Hm
           | output first rest message Ho Hc Hm Hcont
           | output first rest message c Ho Hc Hm Hcont Hf];
      cbn in Ho; injection Ho as <-; cbn in Hc; discriminate Hc.
  - reflexivity.
  - cbn. intros [].
Qed.

(** ** image_recognition_workflow.py: process_image *)

Section ImageProperties.

Variable LocationData : Type.
Variable create_prompt : LocationData -> string.
Variable api_endpoint : string.
Variable image_pipeline : string -> Z * Z -> result string.
Variable http_post : string -> string -> string -> result dict.

(** C8.  When the image cannot be loaded or decoded the workflow fails
    with "Error preprocessing image: ..." in the preprocessing step:
    nothing is printed after "Preprocessing image..." but the error, the
    prompt step is not reached and no request is posted. *)
Theorem process_image_load_failure (image_path : string)
    (location : LocationData) (e : exc) :
  image_pipeline image_path (1024, 1024) = Raise e ->
  let run := process_image LocationData create_prompt api_endpoint
               image_pipeline http_post image_path location in
  outcome run = Raise (preprocessing_failed e) /\
  trace run = [Print [PStr "Preprocessing image..."];
               Print [PStr "Error in workflow: "; PExc (preprocessing_failed e)]] /\
  filter is_post (trace run) = [] /\
  (In (Print [PStr "Creating prompt..."]) (trace run) -> False).
Proof.
  intros H run. unfold run, process_image, preprocess_image. rewrite H.
  cbn. repeat split.
  intros [E|[E|[]]]; discriminate E.
Qed.

End ImageProperties.

Lemma process_image_load_failure_witness :
  let run := process_image unit (fun _ => "Describe the landmark.")
               "https://dashscope.aliyuncs.com/api/v1/services/aigc/multimodal-generation/generation"
               one_image (fun _ _ _ => Ok (response_with abc_content))
               "image_example/missing.jpg" tt in
  outcome run
  = Raise (preprocessing_failed (OSError "No such file or directory")) /\
  trace run
  = [Print [PStr "Preprocessing image..."];
     Print [PStr "Error in workflow: ";
            PExc (preprocessing_failed (OSError "No such file or directory"))]] /\
  filter is_post (trace run) = [] /\
  (In (Print [PStr "Creating prompt..."]) (trace run) -> False).
Proof.
  apply (process_image_load_failure unit (fun _ => "Describe the landmark.")
           "https://dashscope.aliyuncs.com/api/v1/services/aigc/multimodal-generation/generation"
           one_image (fun _ _ _ => Ok (response_with abc_content))
           "image_example/missing.jpg" tt
           (OSError "No such file or directory")).
  reflexivity.
Defined.

(* ================================================================== *)
(** * Further properties *)

(** ** White space *)

Lemma append_assoc (a b c : string) : (a ++ b) ++ c = a ++ b ++ c.
Proof.
  induction a as [|x a IH]; simpl; [reflexivity | rewrite IH; reflexivity].
Qed.

Lemma lstrip_app (a b : string) :
  lstrip a <> "" -> lstrip (a ++ b) = lstrip a ++ b.
Proof.
  induction a as [|c a IH]; simpl; intro H.
  - contradiction.
  - destruct (isspace c); [exact (IH H) | reflexivity].
Qed.

Lemma rstrip_app (a b : string) :
  rstrip b <> "" -> rstrip (a ++ b) = a ++ rstrip b.
Proof.
  intro H. induction a as [|c a IH]; simpl.
  - reflexivity.
  - rewrite IH. destruct (a ++ rstrip b) eqn:E; [|reflexivity].
    destruct a; simpl in E; [contradiction | discriminate E].
Qed.

(** Stripping a text whose two ends are fixed leaves the middle alone. *)
Lemma strip_between (before middle after : string) :
  lstrip before <> "" -> rstrip after <> "" ->
  strip (before ++ middle ++ after)
  = lstrip before ++ middle ++ rstrip after.
Proof.
  intros Hb Ha. unfold strip. rewrite (lstrip_app _ _ Hb).
  rewrite <- append_assoc, (rstrip_app _ _ Ha), append_assoc. reflexivity.
Qed.

Lemma lstrip_idem (s : string) : lstrip (lstrip s) = lstrip s.
Proof.
  induction s as [|c s IH]; simpl; [reflexivity|].
  destruct (isspace c) eqn:E; [exact IH | simpl; rewrite E; reflexivity].
Qed.

Lemma rstrip_idem (s : string) : rstrip (rstrip s) = rstrip s.
Proof.
  induction s as [|c s IH]; simpl; [reflexivity|].
  destruct (rstrip s) as [|x r] eqn:E.
  - destruct (isspace c) eqn:Ec; [reflexivity|]. simpl. rewrite Ec. reflexivity.
  - change (rstrip (String c (String x r))) with
      (match rstrip (String x r) with
       | "" => if isspace c then "" else String c ""
       | t => String c t
       end).
    rewrite IH. reflexivity.
Qed.

(** What [rstrip] leaves of a text that starts with a character other
    than white space still starts with it. *)
Lemma lstrip_rstrip (s : string) : lstrip s = s -> lstrip (rstrip s) = rstrip s.
Proof.
  destruct s as [|c s]; [reflexivity|]. intro H.
  assert (Hc : isspace c = false).
  { simpl in H. destruct (isspace c) eqn:E; [|reflexivity].
    exfalso. assert (L : (String.length (lstrip s) <= String.length s)%nat).
    { clear. induction s as [|x s IH]; simpl; [lia|].
      destruct (isspace x); simpl; lia. }
    rewrite H in L. simpl in L. lia. }
  simpl. rewrite Hc. destruct (rstrip s); simpl; rewrite Hc; reflexivity.
Qed.

Lemma strip_trimmed (s : string) : trimmed (strip s).
Proof.
  unfold trimmed, strip. split.
  - apply lstrip_rstrip. apply lstrip_idem.
  - apply rstrip_idem.
Qed.

Lemma blank_lstrip (s : string) : blank s = true -> lstrip s = "".
Proof.
  induction s as [|c s IH]; simpl; intro H; [reflexivity|].
  apply andb_true_iff in H. destruct H as [Hc H]. rewrite Hc. exact (IH H).
Qed.

(** ** travel_planner.py: create_prompt *)

(** X1.  The prompt is fixed text around the question: the question
    stands in it exactly as given, after "User Question: ", and the
    prompt has no white space at its ends whatever the question is. *)
Theorem travel_prompt_embeds_question (user_question : string) :
  TravelWorkflow.create_prompt user_question
  = lstrip TravelWorkflow.prompt_before ++ user_question
      ++ rstrip TravelWorkflow.prompt_after
  /\ starts_with "You are VISTA, an expert travel planner."
       (lstrip TravelWorkflow.prompt_before) = true
  /\ (exists head, lstrip TravelWorkflow.prompt_before = head ++ "User Question: ")
  /\ trimmed (TravelWorkflow.create_prompt user_question).
Proof.
  split; [|split; [|split]].
  - unfold TravelWorkflow.create_prompt. apply strip_between.
    + vm_compute. discriminate.
    + vm_compute. discriminate.
  - vm_compute. reflexivity.
  - exists ("You are VISTA, an expert travel planner. Based on the following question, suggest 3-5 specific locations/buildings that would be perfect for the user's needs."
             ++ nl ++ nl ++ "        ").
    vm_compute. reflexivity.
  - apply strip_trimmed.
Qed.

(** ** travel_planner.py: call_qianwen_api and plan_travel *)

Lemma posts_app (t1 t2 : list event) :
  posts (t1 ++ t2)%list = (posts t1 ++ posts t2)%list.
Proof. apply filter_app. Qed.

Lemma posts_print (args : list printed) (t : list event) :
  posts (Print args :: t) = posts t.
Proof. reflexivity. Qed.

Lemma posts_post (e i p : string) (t : list event) :
  posts (Post e i p :: t) = Post e i p :: posts t.
Proof. reflexivity. Qed.

(** An event that differs from every event of a listed trace. *)
Ltac absent_from Hin :=
  cbn [In] in Hin;
  repeat (destruct Hin as [Hin|Hin]; [discriminate Hin|]);
  contradiction.

Section TravelWorkflowProperties.

Variable json_loads : string -> option json.
Variable api_endpoint : string.
Variable http_post : string -> string -> TravelWorkflow.reply.

Lemma extract_destinations_quiet (r : dict) :
  posts (trace (extract_destinations json_loads r)) = [].
Proof.
  unfold extract_destinations. destruct (extract_body json_loads r); reflexivity.
Qed.

(** X2.  When the service replies, the workflow returns or raises what
    destination extraction does on the reply, and the one request it
    posted carries the prompt built from the question. *)
Theorem plan_travel_reply (user_question : string) (response_data : dict) :
  http_post api_endpoint (TravelWorkflow.create_prompt user_question)
  = TravelWorkflow.Replied response_data ->
  outcome (TravelWorkflow.plan_travel json_loads api_endpoint http_post user_question)
  = outcome (extract_destinations json_loads response_data)
  /\ posts (trace (TravelWorkflow.plan_travel json_loads api_endpoint http_post user_question))
     = [Post api_endpoint "" (TravelWorkflow.create_prompt user_question)].
Proof.
  intro H. unfold TravelWorkflow.plan_travel,
    TravelWorkflow.call_qianwen_api.
  cbn -[TravelWorkflow.create_prompt extract_destinations posts].
  rewrite H.
  pose proof (extract_destinations_quiet response_data) as Q.
  cbn -[TravelWorkflow.create_prompt extract_destinations posts].
  destruct (extract_destinations json_loads response_data) as [t [ds|e]];
    unfold trace in Q; cbn [fst] in Q;
    cbn -[TravelWorkflow.create_prompt posts];
    rewrite ?posts_print, ?posts_post, ?posts_print, ?posts_app, ?Q;
    split; reflexivity.
Qed.

(** X3.  The failure of the call goes by the class of the exception the
    client raises, the handlers tried in their order.  A
    [RequestException] makes the workflow fail with "API request failed:
    ..."; with requests 2.27 and later the error for a body that is not
    JSON is of this class, and fails so.  A [json.JSONDecodeError] that
    is no [RequestException], as earlier versions of requests raise for
    such a body, makes it fail with "Failed to parse API response: ...".
    An exception of another class passes unchanged.  In all three cases
    one request was posted and extraction is not started. *)
Theorem plan_travel_no_reply (user_question : string) :
  let run :=
    TravelWorkflow.plan_travel json_loads api_endpoint http_post user_question in
  let sent := http_post api_endpoint (TravelWorkflow.create_prompt user_question) in
  ((forall message response_text,
      sent = TravelWorkflow.RequestFailed message response_text ->
      outcome run = Raise (request_failed message))
   /\
   (forall raw, sent = TravelWorkflow.PlainDecodeError raw ->
      outcome run = Raise not_json)
   /\
   (forall e, sent = TravelWorkflow.Raised e -> outcome run = Raise e))
  /\
  ((forall response_data, sent <> TravelWorkflow.Replied response_data) ->
   posts (trace run)
   = [Post api_endpoint "" (TravelWorkflow.create_prompt user_question)]
   /\ (In (Print [PStr "Extracting destinations..."]) (trace run) -> False)).
Proof.
  intros run sent. unfold run, TravelWorkflow.plan_travel,
    TravelWorkflow.call_qianwen_api.
  fold sent. split; [split; [|split]|].
  - intros message response_text H. rewrite H.
    destruct response_text; reflexivity.
  - intros raw H. rewrite H. reflexivity.
  - intros e H. rewrite H. reflexivity.
  - intro H. destruct sent as [r|message response_text|raw|e].
    + exfalso. exact (H r eq_refl).
    + destruct response_text; cbn -[TravelWorkflow.create_prompt]; split;
        try reflexivity; intro Hin; absent_from Hin.
    + cbn -[TravelWorkflow.create_prompt]; split; try reflexivity.
      intro Hin; absent_from Hin.
    + cbn -[TravelWorkflow.create_prompt]; split; try reflexivity.
      intro Hin; absent_from Hin.
Qed.

End TravelWorkflowProperties.

Lemma plan_travel_reply_witness :
  outcome (TravelWorkflow.plan_travel JsonText.loads "https://example.test/generation"
             (fun _ _ => TravelWorkflow.Replied choices_response)
             "Two hours at Penn")
  = outcome (extract_destinations JsonText.loads choices_response)
  /\ posts (trace (TravelWorkflow.plan_travel JsonText.loads
                     "https://example.test/generation"
                     (fun _ _ => TravelWorkflow.Replied choices_response)
                     "Two hours at Penn"))
     = [Post "https://example.test/generation" ""
          (TravelWorkflow.create_prompt "Two hours at Penn")].
Proof.
  apply (plan_travel_reply JsonText.loads "https://example.test/generation"
           (fun _ _ => TravelWorkflow.Replied choices_response)
           "Two hours at Penn" choices_response).
  reflexivity.
Defined.

Lemma plan_travel_no_reply_witness :
  outcome (TravelWorkflow.plan_travel JsonText.loads "https://example.test/generation"
             (fun _ _ => TravelWorkflow.RequestFailed "timed out" None)
             "Two hours at Penn")
  = Raise (request_failed "timed out")
  /\ posts (trace (TravelWorkflow.plan_travel JsonText.loads
                     "https://example.test/generation"
                     (fun _ _ => TravelWorkflow.RequestFailed "timed out" None)
                     "Two hours at Penn"))
     = [Post "https://example.test/generation" ""
          (TravelWorkflow.create_prompt "Two hours at Penn")].
Proof.
  split.
  - apply (proj1 (proj1 (plan_travel_no_reply JsonText.loads
                           "https://example.test/generation"
                           (fun _ _ => TravelWorkflow.RequestFailed "timed out" None)
                           "Two hours at Penn")) "timed out" None).
    reflexivity.
  - apply (proj2 (plan_travel_no_reply JsonText.loads
                    "https://example.test/generation"
                    (fun _ _ => TravelWorkflow.RequestFailed "timed out" None)
                    "Two hours at Penn")).
    intros response_data E. discriminate E.
Defined.

(** ** travel_planner.py: extract_destinations, further *)

Section ExtractionProperties.

Variable json_loads : string -> option json.

Lemma extract_body_same_content (r r' : dict) :
  select_content r = select_content r' ->
  extract_body json_loads r = extract_body json_loads r'.
Proof. unfold extract_body. intros ->. reflexivity. Qed.

(** X4.  A content that decodes to something other than an array is
    iterated all the same: an empty object or an empty string gives an
    empty list of destinations, like the empty array; a number, a truth
    value, null, an object with members and a string with characters all
    fail with TypeError. *)
Theorem extract_destinations_not_an_array (r : dict) (content v : json) :
  select_content r = Ok content -> truthy content = true ->
  parse_content json_loads content = Ok v ->
  (v = JArr [] \/ v = JObj [] \/ v = JStr "" ->
   outcome (extract_destinations json_loads r) = Ok [])
  /\
  (v = JNull \/ (exists b, v = JBool b) \/ (exists z, v = JInt z) \/
   (exists member members, v = JObj (member :: members)) \/
   (exists c s, v = JStr (String c s)) ->
   outcome (extract_destinations json_loads r) = Raise (extraction_failed TypeError)).
Proof.
  intros Hs Ht Hp. rewrite extract_outcome.
  rewrite (extract_body_content json_loads r content Hs Ht), Hp.
  split.
  - intros [E|[E|E]]; subst v; reflexivity.
  - intros [E|[[b E]|[[z E]|[[member [members E]]|[c [s E]]]]]];
      subst v; reflexivity.
Qed.

(** X5.  Whatever goes wrong inside extraction is raised as one
    exception, "Failed to extract destinations from response: ..."
    around the cause, after the cause and the raw response were printed;
    a success prints the response once and nothing else. *)
Theorem extract_destinations_report (r : dict) :
  let first := Print [PStr "Extracting from response: "; PDumps (JObj r)] in
  (exists destinations,
     extract_destinations json_loads r = ([first], Ok destinations))
  \/
  (exists cause,
     extract_destinations json_loads r
     = ([first;
         Print [PStr "Error processing API response: "; PExc cause];
         Print [PStr "Raw API response: "; PDumps (JObj r)]],
        Raise (extraction_failed cause))).
Proof.
  intro first. unfold extract_destinations.
  destruct (extract_body json_loads r) as [ds|e].
  - left. exists ds. reflexivity.
  - right. exists e. reflexivity.
Qed.

(** X6.  Only the wrapper chosen by key decides the result: two
    responses with the same "output" member, or with no "output" member
    and the same "response" member, or with neither and the same
    "choices" member, are extracted alike whatever else they hold. *)
Theorem extract_destinations_reads_one_wrapper (r r' : dict) :
  (forall v, lookup "output" r = Some v -> lookup "output" r' = Some v ->
     outcome (extract_destinations json_loads r)
     = outcome (extract_destinations json_loads r'))
  /\
  (forall v, lookup "output" r = None -> lookup "output" r' = None ->
     lookup "response" r = Some v -> lookup "response" r' = Some v ->
     outcome (extract_destinations json_loads r)
     = outcome (extract_destinations json_loads r'))
  /\
  (forall v, lookup "output" r = None -> lookup "output" r' = None ->
     lookup "response" r = None -> lookup "response" r' = None ->
     lookup "choices" r = Some v -> lookup "choices" r' = Some v ->
     outcome (extract_destinations json_loads r)
     = outcome (extract_destinations json_loads r')).
Proof.
  split; [|split].
  - intros v H H'. rewrite !extract_outcome.
    rewrite (extract_body_same_content r r'); [reflexivity|].
    unfold select_content, mem, dict_get. rewrite H, H'. reflexivity.
  - intros v Ho Ho' H H'. rewrite !extract_outcome.
    rewrite (extract_body_same_content r r'); [reflexivity|].
    unfold select_content, mem, dict_get. rewrite Ho, Ho', H, H'. reflexivity.
  - intros v Ho Ho' Hr Hr' H H'. rewrite !extract_outcome.
    rewrite (extract_body_same_content r r'); [reflexivity|].
    unfold select_content, mem, dict_get.
    rewrite Ho, Ho', Hr, Hr', H, H'. reflexivity.
Qed.

End ExtractionProperties.

Lemma extract_destinations_not_an_array_witness :
  outcome (extract_destinations JsonText.loads [("response", JStr "{}")]) = Ok []
  /\ outcome (extract_destinations JsonText.loads [("response", JStr "12")])
     = Raise (extraction_failed TypeError).
Proof.
  split.
  - apply (proj1 (extract_destinations_not_an_array JsonText.loads
                    [("response", JStr "{}")] (JStr "{}") (JObj [])
                    eq_refl eq_refl eq_refl)).
    right. left. reflexivity.
  - apply (proj2 (extract_destinations_not_an_array JsonText.loads
                    [("response", JStr "12")] (JStr "12") (JInt 12)
                    eq_refl eq_refl eq_refl)).
    right. right. left. exists 12. reflexivity.
Defined.

Lemma extract_destinations_reads_one_wrapper_witness :
  outcome (extract_destinations JsonText.loads shadowed_response)
  = outcome (extract_destinations JsonText.loads
               [("output", JObj [("finish_reason", JStr "stop")])]).
Proof.
  apply (proj1 (extract_destinations_reads_one_wrapper JsonText.loads
                  shadowed_response
                  [("output", JObj [("finish_reason", JStr "stop")])])
           (JObj [("finish_reason", JStr "stop")])); reflexivity.
Defined.

(** ** route_planner.py: calculate_route and plan_route, further *)

Section RouteOutcomes.

Variable directions :
  string -> string -> list string -> bool -> string -> string -> result json.

Lemma calculate_route_outcome (first last : string) (interior : list string)
    (optimize : bool) :
  outcome (calculate_route directions (first :: interior ++ [last])%list optimize)
  = match directions first last interior optimize "walking" "metric" with
    | Raise e => Raise e
    | Ok v => if truthy v then getitem_int v 0 else Raise no_route
    end.
Proof.
  unfold calculate_route.
  assert (E : (Z.of_nat (length (first :: interior ++ [last])%list) <? 2) = false).
  { apply Z.ltb_ge. simpl length. rewrite length_app. simpl. lia. }
  rewrite E. unfold index_str.
  rewrite list_index_head, list_index_last.
  cbn zeta. rewrite waypoints_interior.
  destruct (directions first last interior optimize "walking" "metric")
    as [v|e] eqn:D.
  - destruct (truthy v) eqn:T.
    + destruct (getitem_int v 0) as [route|e] eqn:G;
        destruct interior; cbn; rewrite D; cbn; rewrite T; cbn; rewrite G;
        reflexivity.
    + destruct interior; cbn; rewrite D; cbn; rewrite T; reflexivity.
  - destruct interior; cbn; rewrite D; reflexivity.
Qed.

(** X7.  With two locations or more the calculation returns the first
    route of the service's list, whatever routes follow it; it fails with
    "No route found" when the list is empty, and an exception of the
    client is raised unchanged. *)
Theorem calculate_route_first_route (locations : list string) (optimize : bool) :
  (2 <= length locations)%nat ->
  exists first interior last,
    locations = (first :: interior ++ [last])%list /\
    let reply := directions first last interior optimize "walking" "metric" in
    let run := calculate_route directions locations optimize in
    (forall route more, reply = Ok (JArr (route :: more)) -> outcome run = Ok route)
    /\ (forall v, reply = Ok v -> truthy v = false -> outcome run = Raise no_route)
    /\ (forall e, reply = Raise e -> outcome run = Raise e).
Proof.
  intro H. destruct (length_two_split _ H) as (a & mid & b & ->).
  exists a, mid, b. split; [reflexivity|]. cbn zeta.
  rewrite calculate_route_outcome. split; [|split].
  - intros route more ->. cbn [truthy getitem_int].
    rewrite list_index_head. reflexivity.
  - intros v -> Hv. rewrite Hv. reflexivity.
  - intros e ->. reflexivity.
Qed.

(** X13.  The planning succeeds exactly when the calculation and the
    parsing both do; its result then holds the parsed summary, the link
    built from the same locations and the route as the service gave it.
    A failure of either step is raised unchanged. *)
Theorem plan_route_outcome (locations : list string) :
  outcome (plan_route directions locations)
  = match outcome (calculate_route directions locations true) with
    | Raise e => Raise e
    | Ok route =>
        match outcome (parse_route_info route) with
        | Raise e => Raise e
        | Ok info =>
            Ok {| route_info := info;
                  maps_url := get_route_url locations;
                  raw_data := route |}
        end
    end.
Proof.
  unfold plan_route, try_except.
  destruct (calculate_route directions locations true) as [t [route|e]].
  - cbn -[parse_route_info get_route_url].
    destruct (parse_route_info route) as [t' [info|e]]; reflexivity.
  - reflexivity.
Qed.

End RouteOutcomes.

Lemma calculate_route_first_route_witness :
  exists first interior last,
    ["College Hall"; "Huntsman Hall"] = (first :: interior ++ [last])%list /\
    let reply := (fun _ _ _ _ _ _ => Ok (JArr [sample_route; JNull]))
                   first last interior true "walking" "metric" in
    let run := calculate_route (fun _ _ _ _ _ _ => Ok (JArr [sample_route; JNull]))
                 ["College Hall"; "Huntsman Hall"] true in
    (forall route more, reply = Ok (JArr (route :: more)) -> outcome run = Ok route)
    /\ (forall v, reply = Ok v -> truthy v = false -> outcome run = Raise no_route)
    /\ (forall e, reply = Raise e -> outcome run = Raise e).
Proof.
  apply (calculate_route_first_route
           (fun _ _ _ _ _ _ => Ok (JArr [sample_route; JNull]))
           ["College Hall"; "Huntsman Hall"] true).
  simpl. lia.
Defined.

(** ** route_planner.py: parse_route_info, further *)

Lemma list_index_first {A} (l : list A) (x : A) :
  list_index l 0 = Some x -> exists rest, l = x :: rest.
Proof.
  destruct l as [|a l]; intro H.
  - discriminate H.
  - rewrite list_index_head in H. injection H as <-. exists l. reflexivity.
Qed.

(** X8.  The summary starts at the first leg's start address and ends at
    the last leg's end address. *)
Theorem parse_route_info_endpoints (route : json) (legs : list json)
    (info : RouteInfo) :
  getitem route "legs" = Ok (JArr legs) ->
  outcome (parse_route_info route) = Ok info ->
  exists first rest,
    legs = first :: rest /\
    getitem first "start_address" = Ok (start_location info) /\
    getitem (last legs first) "end_address" = Ok (end_location info).
Proof.
  intros Hlegs H. rewrite parse_outcome in H. unfold parse_body in H.
  rewrite Hlegs in H. cbn [and_then iter] in H.
  apply and_then_ok in H. destruct H as (td & _ & H).
  apply and_then_ok in H. destruct H as (tt & _ & H).
  apply and_then_ok in H. destruct H as (ds & _ & H).
  apply and_then_ok in H. destruct H as (st & _ & H).
  apply and_then_ok in H. destruct H as (first & Hfirst & H).
  apply and_then_ok in H. destruct H as (start & Hstart & H).
  apply and_then_ok in H. destruct H as (final & Hfinal & H).
  apply and_then_ok in H. destruct H as (finish & Hfinish & H).
  injection H as <-. cbn [start_location end_location].
  cbn [getitem_int] in Hfirst, Hfinal.
  destruct (list_index legs 0) as [x|] eqn:E0; [|discriminate Hfirst].
  injection Hfirst as ->.
  destruct (list_index_first _ _ E0) as (rest & ->).
  rewrite (list_index_final (first :: rest) first) in Hfinal by discriminate.
  injection Hfinal as <-.
  exists first, rest. auto.
Qed.

Lemma parse_route_info_endpoints_witness :
  exists first rest,
    [sample_leg 1000 60 "College Hall" "Fisher Fine Arts Library"
       ["Head <b>west</b> on Locust Walk"; main_st];
     sample_leg 500 65 "Fisher Fine Arts Library" "Huntsman Hall"
       ["Continue <wbr/>straight"]] = first :: rest /\
    getitem first "start_address" = Ok (JStr "College Hall") /\
    getitem (last [sample_leg 1000 60 "College Hall" "Fisher Fine Arts Library"
                     ["Head <b>west</b> on Locust Walk"; main_st];
                   sample_leg 500 65 "Fisher Fine Arts Library" "Huntsman Hall"
                     ["Continue <wbr/>straight"]] first) "end_address"
    = Ok (JStr "Huntsman Hall").
Proof.
  apply (parse_route_info_endpoints sample_route _
           {| start_location := JStr "College Hall";
              end_location := JStr "Huntsman Hall";
              distance := "1.50 km";
              duration := "2 min 5 sec";
              steps := ["Head west on Locust Walk"; "Turn left - onto Main St";
                        "Continue <wbr/>straight"] |}).
  - reflexivity.
  - vm_compute. reflexivity.
Defined.

(** X9.  A route without a "legs" member fails with the KeyError of that
    key, and a route whose list of legs is empty fails with IndexError
    instead of giving an empty summary.  A failure prints one line and
    raises the same exception again; a success prints nothing. *)
Theorem parse_route_info_failures :
  (forall d, lookup "legs" d = None ->
     parse_route_info (JObj d)
     = ([Print [PStr "Error parsing route info: "; PExc (KeyError (JStr "legs"))]],
        Raise (KeyError (JStr "legs"))))
  /\
  (forall d, lookup "legs" d = Some (JArr []) ->
     parse_route_info (JObj d)
     = ([Print [PStr "Error parsing route info: "; PExc IndexError]],
        Raise IndexError))
  /\
  (forall route e, outcome (parse_route_info route) = Raise e ->
     trace (parse_route_info route)
     = [Print [PStr "Error parsing route info: "; PExc e]])
  /\
  (forall route info, outcome (parse_route_info route) = Ok info ->
     trace (parse_route_info route) = []).
Proof.
  split; [|split; [|split]].
  - intros d H. unfold parse_route_info, parse_body, getitem. rewrite H.
    reflexivity.
  - intros d H. unfold parse_route_info, parse_body, getitem. rewrite H.
    reflexivity.
  - intros route e. unfold parse_route_info.
    destruct (parse_body route); cbn; intro H; [discriminate H|].
    injection H as <-. reflexivity.
  - intros route info. unfold parse_route_info.
    destruct (parse_body route); cbn; intro H; [reflexivity | discriminate H].
Qed.

Lemma parse_route_info_failures_witness :
  parse_route_info (JObj [("summary", JStr "Locust Walk")])
  = ([Print [PStr "Error parsing route info: "; PExc (KeyError (JStr "legs"))]],
     Raise (KeyError (JStr "legs")))
  /\ parse_route_info (JObj [("legs", JArr [])])
     = ([Print [PStr "Error parsing route info: "; PExc IndexError]],
        Raise IndexError).
Proof.
  split.
  - apply (proj1 parse_route_info_failures). reflexivity.
  - apply (proj1 (proj2 parse_route_info_failures)). reflexivity.
Defined.

(** X10.  The duration text holds whole minutes and the seconds left
    over: the seconds lie between 0 and 59 and sixty times the minutes
    plus the seconds is the total, so an hour or more stays in minutes. *)
Theorem format_duration_parts (total_duration : Z) :
  exists minutes seconds,
    format_duration total_duration
    = str_int minutes ++ " min " ++ str_int seconds ++ " sec" /\
    0 <= seconds < 60 /\
    60 * minutes + seconds = total_duration /\
    (0 <= total_duration -> 0 <= minutes).
Proof.
  exists (total_duration / 60), (total_duration mod 60).
  split; [reflexivity|]. split; [apply Z.mod_pos_bound; lia|].
  split; [symmetry; apply Z.div_mod; lia|].
  intro H. apply Z.div_pos; lia.
Qed.

Lemma format_duration_parts_witness :
  exists minutes seconds,
    format_duration 3725
    = str_int minutes ++ " min " ++ str_int seconds ++ " sec" /\
    0 <= seconds < 60 /\
    60 * minutes + seconds = 3725 /\
    (0 <= 3725 -> 0 <= minutes).
Proof. exact (format_duration_parts 3725). Defined.

(** ** route_planner.py: get_route_url *)

Lemma lacks_app (d : ascii) (a b : string) :
  lacks d (a ++ b) = lacks d a && lacks d b.
Proof.
  induction a as [|x a IH]; simpl; [reflexivity|].
  rewrite IH. apply andb_assoc.
Qed.

Lemma replace_char_cons (c : ascii) (new : string) (x : ascii) (s : string) :
  replace_from (String c "") new 0 (String x s)
  = if Ascii.eqb c x
    then new ++ replace_from (String c "") new 0 s
    else String x (replace_from (String c "") new 0 s).
Proof.
  rewrite replace_from_0. cbn [starts_with String.length Nat.sub].
  rewrite andb_true_r. reflexivity.
Qed.

(** Replacing a character by a text that has none of it removes it. *)
Lemma replace_char_lacks (c : ascii) (new s : string) :
  lacks c new = true ->
  lacks c (replace_from (String c "") new 0 s) = true.
Proof.
  intro H. induction s as [|x s IH]; [reflexivity|].
  rewrite replace_char_cons. destruct (Ascii.eqb c x) eqn:E.
  - rewrite lacks_app, H, IH. reflexivity.
  - simpl. rewrite Ascii.eqb_sym, E, IH. reflexivity.
Qed.

Lemma replace_char_keeps (d c : ascii) (new s : string) :
  lacks d s = true -> lacks d new = true ->
  lacks d (replace_from (String c "") new 0 s) = true.
Proof.
  intros Hs H. induction s as [|x s IH]; [reflexivity|].
  simpl in Hs. apply andb_true_iff in Hs. destruct Hs as [Hx Hs].
  rewrite replace_char_cons. destruct (Ascii.eqb c x).
  - rewrite lacks_app, H, (IH Hs). reflexivity.
  - simpl. rewrite Hx, (IH Hs). reflexivity.
Qed.

Lemma lacks_occurs (c : ascii) (s : string) :
  lacks c s = true -> occurs (String c "") s = false.
Proof.
  induction s as [|x s IH]; simpl; intro H; [reflexivity|].
  apply andb_true_iff in H. destruct H as [Hx H].
  apply negb_true_iff in Hx. rewrite Ascii.eqb_sym, Hx, (IH H). reflexivity.
Qed.

Lemma encode_location_lacks (location : string) :
  lacks " " (encode_location location) = true /\
  lacks "," (encode_location location) = true.
Proof.
  unfold encode_location, replace. split.
  - apply replace_char_keeps; [|reflexivity].
    apply replace_char_lacks. reflexivity.
  - apply replace_char_lacks. reflexivity.
Qed.

Lemma lacks_concat (d : ascii) (sep : string) (l : list string) :
  lacks d sep = true -> Forall (fun x => lacks d x = true) l ->
  lacks d (String.concat sep l) = true.
Proof.
  intros Hsep H. induction H as [|x l Hx Hl IH]; [reflexivity|].
  destruct l as [|y l]; [exact Hx|].
  change (String.concat sep (x :: y :: l))
    with (x ++ sep ++ String.concat sep (y :: l)).
  rewrite !lacks_app, Hx, Hsep, IH. reflexivity.
Qed.

(** X11.  An encoded location holds no space and no comma, and a
    location without them is left as it is; the link starts with the
    maps address and holds no space and no comma either. *)
Theorem get_route_url_plain :
  (forall location,
     lacks " " (encode_location location) = true /\
     lacks "," (encode_location location) = true /\
     (lacks " " location = true -> lacks "," location = true ->
      encode_location location = location))
  /\
  (forall locations,
     starts_with "https://www.google.com/maps/dir/" (get_route_url locations)
     = true /\
     lacks " " (get_route_url locations) = true /\
     lacks "," (get_route_url locations) = true).
Proof.
  split.
  - intro location. destruct (encode_location_lacks location) as [Hs Hc].
    split; [exact Hs|]. split; [exact Hc|].
    intros Ls Lc. unfold encode_location.
    rewrite (replace_absent " " "+" location (lacks_occurs _ _ Ls)).
    apply replace_absent. apply lacks_occurs. exact Lc.
  - intro locations. unfold get_route_url. split; [reflexivity|].
    split; rewrite lacks_app; apply andb_true_iff; (split; [reflexivity|]);
      (apply lacks_concat; [reflexivity|]);
      apply Forall_forall; intros x Hx; apply in_map_iff in Hx;
      destruct Hx as (location & <- & _); apply encode_location_lacks.
Qed.

Lemma get_route_url_plain_witness :
  encode_location "HuntsmanHall" = "HuntsmanHall".
Proof.
  apply (proj1 get_route_url_plain "HuntsmanHall"); reflexivity.
Defined.

(** X12.  The encoding does not tell a space from a plus sign: a
    location and the same location with "+" for its spaces are encoded
    alike, and so are the links of two such lists. *)
Theorem get_route_url_merges_plus (locations : list string) :
  (forall location,
     encode_location (replace " " "+" location) = encode_location location)
  /\ get_route_url (map (replace " " "+") locations) = get_route_url locations.
Proof.
  assert (E : forall location,
             encode_location (replace " " "+" location) = encode_location location).
  { intro location. unfold encode_location.
    rewrite (replace_absent " " "+" (replace " " "+" location)); [reflexivity|].
    apply lacks_occurs. unfold replace. apply replace_char_lacks. reflexivity. }
  split; [exact E|].
  unfold get_route_url. rewrite map_map.
  rewrite (map_ext _ _ E). reflexivity.
Qed.

(** ** route_planner.py: geocode_location *)

Section GeocodeProperties.

Variable geocode : string -> result json.

Lemma located_top (results lat lng : json) :
  located results lat lng ->
  truthy results = true /\
  (top <~ getitem_int results 0 ;;
   geometry <~ getitem top "geometry" ;;
   location <~ getitem geometry "location" ;;
   lat <~ getitem location "lat" ;;
   lng <~ getitem location "lng" ;;
   Ok (lat, lng)) = Ok (lat, lng).
Proof.
  intros (top & more & geometry & location & -> & Hg & Hl & Hlat & Hlng).
  split; [reflexivity|].
  cbn [getitem_int]. rewrite list_index_head. cbn [and_then getitem].
  rewrite Hg. cbn [and_then getitem]. rewrite Hl. cbn [and_then getitem].
  rewrite Hlat. cbn [and_then]. rewrite Hlng. reflexivity.
Qed.

(** X14.  The name is looked up with the context first, and the
    coordinates of the first result are returned whatever a lookup of the
    bare name would give; the bare name is looked up only when the first
    lookup gives no result, and then its first result is returned. *)
Theorem geocode_location_fallback (location_name context : string) (lat lng : json) :
  (forall results,
     geocode (location_name ++ ", " ++ context) = Ok results ->
     located results lat lng ->
     Geocoding.geocode_location geocode location_name context
     = ([], Ok (lat, lng)))
  /\
  (forall nothing results,
     geocode (location_name ++ ", " ++ context) = Ok nothing ->
     truthy nothing = false ->
     geocode location_name = Ok results ->
     located results lat lng ->
     Geocoding.geocode_location geocode location_name context
     = ([], Ok (lat, lng))).
Proof.
  split.
  - intros results H L. destruct (located_top _ _ _ L) as [T C].
    unfold Geocoding.geocode_location. cbn zeta. rewrite H.
    cbn -[truthy getitem_int getitem and_then]. rewrite T.
    cbn -[truthy getitem_int getitem and_then]. rewrite T, C. reflexivity.
  - intros nothing results H N H' L. destruct (located_top _ _ _ L) as [T C].
    unfold Geocoding.geocode_location. cbn zeta. rewrite H.
    cbn -[truthy getitem_int getitem and_then]. rewrite N.
    cbn -[truthy getitem_int getitem and_then]. rewrite H'.
    cbn -[truthy getitem_int getitem and_then]. rewrite T, C. reflexivity.
Qed.

(** X15.  When neither lookup gives a result, geocoding fails with
    "Could not geocode location: <name>"; an exception of the client, in
    the first lookup or in the second, is raised unchanged.  Each failure
    prints one line naming the location. *)
Theorem geocode_location_failures (location_name context : string) :
  (forall nothing nothing',
     geocode (location_name ++ ", " ++ context) = Ok nothing ->
     truthy nothing = false ->
     geocode location_name = Ok nothing' ->
     truthy nothing' = false ->
     Geocoding.geocode_location geocode location_name context
     = ([geocoding_error location_name (not_geocoded location_name)],
        Raise (not_geocoded location_name)))
  /\
  (forall e,
     geocode (location_name ++ ", " ++ context) = Raise e ->
     Geocoding.geocode_location geocode location_name context
     = ([geocoding_error location_name e], Raise e))
  /\
  (forall nothing e,
     geocode (location_name ++ ", " ++ context) = Ok nothing ->
     truthy nothing = false ->
     geocode location_name = Raise e ->
     Geocoding.geocode_location geocode location_name context
     = ([geocoding_error location_name e], Raise e)).
Proof.
  split; [|split].
  - intros nothing nothing' H N H' N'.
    unfold Geocoding.geocode_location. cbn zeta. rewrite H.
    cbn -[truthy]. rewrite N. cbn -[truthy]. rewrite H'.
    cbn -[truthy]. rewrite N'. reflexivity.
  - intros e H. unfold Geocoding.geocode_location. cbn zeta. rewrite H.
    reflexivity.
  - intros nothing e H N H'.
    unfold Geocoding.geocode_location. cbn zeta. rewrite H.
    cbn -[truthy]. rewrite N. cbn -[truthy]. rewrite H'. reflexivity.
Qed.

End GeocodeProperties.

Lemma geocode_location_fallback_witness :
  Geocoding.geocode_location
    (fun query =>
       if String.eqb query "College Hall"
       then Ok (JArr [place (JInt 39) (JInt (-75))])
       else Ok (JArr []))
    "College Hall" Geocoding.default_context
  = ([], Ok (JInt 39, JInt (-75)))
  /\ Geocoding.geocode_location
       (fun query => Ok (JArr [place (JInt 40) (JInt (-75)); place JNull JNull]))
       "College Hall" Geocoding.default_context
     = ([], Ok (JInt 40, JInt (-75))).
Proof.
  split.
  - apply (proj2 (geocode_location_fallback _ "College Hall"
                    Geocoding.default_context (JInt 39) (JInt (-75)))
             (JArr []) (JArr [place (JInt 39) (JInt (-75))]));
      try reflexivity.
    unfold located, place. do 4 eexists. repeat split; reflexivity.
  - apply (proj1 (geocode_location_fallback _ "College Hall"
                    Geocoding.default_context (JInt 40) (JInt (-75)))
             (JArr [place (JInt 40) (JInt (-75)); place JNull JNull]));
      try reflexivity.
    unfold located, place. do 4 eexists. repeat split; reflexivity.
Defined.

Lemma geocode_location_failures_witness :
  Geocoding.geocode_location (fun _ => Ok (JArr [])) "Nowhere Hall"
    Geocoding.default_context
  = ([geocoding_error "Nowhere Hall" (not_geocoded "Nowhere Hall")],
     Raise (not_geocoded "Nowhere Hall")).
Proof.
  apply (proj1 (geocode_location_failures (fun _ => Ok (JArr []))
                  "Nowhere Hall" Geocoding.default_context)
           (JArr []) (JArr [])); reflexivity.
Defined.

(** ** image_recognition_workflow.py: get_location_context, create_prompt *)

Section PromptProperties.

Variable float : Type.
Variable str_float : float -> string.

(** X16.  The context starts with the coordinates; an address and a
    landmark each add a line, the address first, and an empty text
    counts as no text at all: with both, the three lines; with an
    address alone, the coordinates and the address line; with a landmark
    alone, the coordinates and the landmark line; with neither, the
    coordinates alone. *)
Theorem location_context_lines (lat lng : float) :
  let coordinates :=
    "Location coordinates: " ++ str_float lat ++ ", " ++ str_float lng in
  let context a l :=
    ImagePrompt.get_location_context float str_float
      (ImagePrompt.Build_LocationData float lat lng a l) in
  (forall a l, a <> "" -> l <> "" ->
     context (Some a) (Some l)
     = coordinates ++ nl ++ "Address: " ++ a ++ nl ++ "Nearby landmark: " ++ l)
  /\
  (forall a l,
     context (Some "") l = context None l /\
     context a (Some "") = context a None)
  /\
  context None None = coordinates
  /\
  (forall a, a <> "" ->
     context (Some a) None = coordinates ++ nl ++ "Address: " ++ a)
  /\
  (forall l, l <> "" ->
     context None (Some l) = coordinates ++ nl ++ "Nearby landmark: " ++ l).
Proof.
  intros coordinates context. unfold context. split; [|split; [|split; [|split]]].
  - intros a l Ha Hl. unfold ImagePrompt.get_location_context.
    cbn [ImagePrompt.address ImagePrompt.landmark ImagePrompt.latitude
         ImagePrompt.longitude ImagePrompt.given ImagePrompt.text_of].
    apply String.eqb_neq in Ha, Hl. rewrite Ha, Hl. cbn [negb].
    fold coordinates. rewrite !append_assoc. reflexivity.
  - intros a l. split; reflexivity.
  - reflexivity.
  - intros a Ha. unfold ImagePrompt.get_location_context.
    cbn [ImagePrompt.address ImagePrompt.landmark ImagePrompt.latitude
         ImagePrompt.longitude ImagePrompt.given ImagePrompt.text_of].
    apply String.eqb_neq in Ha. rewrite Ha. cbn [negb].
    fold coordinates. reflexivity.
  - intros l Hl. unfold ImagePrompt.get_location_context.
    cbn [ImagePrompt.address ImagePrompt.landmark ImagePrompt.latitude
         ImagePrompt.longitude ImagePrompt.given ImagePrompt.text_of].
    apply String.eqb_neq in Hl. rewrite Hl. cbn [negb].
    fold coordinates. reflexivity.
Qed.

(** X17.  The image prompt is fixed text around the location context:
    the context stands in it exactly as built, and the prompt has no
    white space at its ends. *)
Theorem image_prompt_embeds_context (here : ImagePrompt.LocationData float) :
  ImagePrompt.create_prompt float str_float here
  = lstrip ImagePrompt.prompt_before ++ ImagePrompt.get_location_context float str_float here
      ++ rstrip ImagePrompt.prompt_after
  /\ starts_with "You are VISTA, an enthusiastic and knowledgeable tour guide."
       (lstrip ImagePrompt.prompt_before) = true
  /\ trimmed (ImagePrompt.create_prompt float str_float here).
Proof.
  split; [|split].
  - unfold ImagePrompt.create_prompt. apply strip_between.
    + vm_compute. discriminate.
    + vm_compute. discriminate.
  - vm_compute. reflexivity.
  - apply strip_trimmed.
Qed.

End PromptProperties.

Lemma location_context_lines_witness :
  ImagePrompt.get_location_context unit (fun _ => "39.95")
    (ImagePrompt.Build_LocationData unit tt tt
       (Some "3730 Walnut St") (Some "Huntsman Hall"))
  = ("Location coordinates: " ++ "39.95" ++ ", " ++ "39.95")
      ++ nl ++ "Address: " ++ "3730 Walnut St"
      ++ nl ++ "Nearby landmark: " ++ "Huntsman Hall".
Proof.
  apply (proj1 (location_context_lines unit (fun _ => "39.95") tt tt)
           "3730 Walnut St" "Huntsman Hall"); discriminate.
Defined.

(** ** image_recognition_workflow.py: call_qianwen_api and process_image *)

Lemma extract_description_quiet (r : dict) :
  posts (trace (extract_description r)) = [].
Proof.
  unfold extract_description.
  destruct (description_body r) as [s|e]; [reflexivity|].
  destruct e; reflexivity.
Qed.

Section ImageWorkflowProperties.

Variable LocationData : Type.
Variable create_prompt : LocationData -> string.
Variable api_endpoint : string.
Variable image_pipeline : string -> Z * Z -> result string.
Variable http_post : string -> string -> string -> result dict.

(** X18.  With the image encoded and a reply from the service, the
    workflow returns or raises what description extraction does on the
    reply; the one request it posted carries the encoded image and the
    prompt of the location, and is posted after the prompt step. *)
Theorem process_image_reply (image_path : string) (here : LocationData)
    (image_base64 : string) (response : dict) :
  image_pipeline image_path (1024, 1024) = Ok image_base64 ->
  http_post api_endpoint image_base64 (create_prompt here) = Ok response ->
  let run :=
    ImageRecognition.process_image LocationData create_prompt api_endpoint
      image_pipeline http_post image_path here in
  outcome run = outcome (extract_description response)
  /\ posts (trace run) = [Post api_endpoint image_base64 (create_prompt here)]
  /\ exists after,
       trace run
       = ([Print [PStr "Preprocessing image..."];
           Print [PStr "Creating prompt..."];
           Print [PStr "Calling Qianwen AI API..."];
           Post api_endpoint image_base64 (create_prompt here);
           Print [PStr "Extracting description..."]] ++ after)%list.
Proof.
  intros Hi Hp run. unfold run, ImageRecognition.process_image,
    preprocess_image, call_qianwen_api.
  rewrite Hi. cbn -[extract_description posts]. rewrite Hp.
  pose proof (extract_description_quiet response) as Q.
  cbn -[extract_description posts].
  destruct (extract_description response) as [t [d|e]];
    unfold trace in Q; cbn [fst] in Q; cbn -[posts];
    rewrite ?posts_print, ?posts_post, ?posts_print, ?posts_app, ?Q;
    (split; [reflexivity | split; [reflexivity | eexists; reflexivity]]).
Qed.

(** X19.  With the image encoded and no reply, the failure goes by the
    class of the exception the client raises, the handlers tried in
    their order: "API request failed: ..." for a [RequestException],
    which with requests 2.27 and later includes the error for a body
    that is not JSON; "Failed to parse API response: ..." for a
    [json.JSONDecodeError] that is no [RequestException], as earlier
    versions of requests raise for such a body; any other exception
    unchanged.  One request was posted and the extraction step is not
    reached. *)
Theorem process_image_no_reply (image_path : string) (here : LocationData)
    (image_base64 : string) (e : exc) :
  image_pipeline image_path (1024, 1024) = Ok image_base64 ->
  http_post api_endpoint image_base64 (create_prompt here) = Raise e ->
  let run :=
    ImageRecognition.process_image LocationData create_prompt api_endpoint
      image_pipeline http_post image_path here in
  outcome run
  = Raise (match e with
           | RequestException message => request_failed message
           | JSONDecodeError => not_json
           | _ => e
           end)
  /\ posts (trace run) = [Post api_endpoint image_base64 (create_prompt here)]
  /\ (In (Print [PStr "Extracting description..."]) (trace run) -> False).
Proof.
  intros Hi Hp run. unfold run, ImageRecognition.process_image,
    preprocess_image, call_qianwen_api.
  rewrite Hi. cbn. rewrite Hp.
  destruct e; cbn; (split; [reflexivity | split; [reflexivity|]]);
    intro Hin; absent_from Hin.
Qed.

End ImageWorkflowProperties.

Lemma process_image_reply_witness :
  let run := ImageRecognition.process_image unit (fun _ => "Describe the landmark.")
               "https://example.test/multimodal" one_image
               (fun _ _ _ => Ok (response_with abc_content))
               "image_example/example10.jpg" tt in
  outcome run = outcome (extract_description (response_with abc_content))
  /\ posts (trace run)
     = [Post "https://example.test/multimodal" "/9j/4AAQSkZJRg=="
          "Describe the landmark."]
  /\ exists after,
       trace run
       = ([Print [PStr "Preprocessing image..."];
           Print [PStr "Creating prompt..."];
           Print [PStr "Calling Qianwen AI API..."];
           Post "https://example.test/multimodal" "/9j/4AAQSkZJRg=="
             "Describe the landmark.";
           Print [PStr "Extracting description..."]] ++ after)%list.
Proof.
  apply (process_image_reply unit (fun _ => "Describe the landmark.")
           "https://example.test/multimodal" one_image
           (fun _ _ _ => Ok (response_with abc_content))
           "image_example/example10.jpg" tt "/9j/4AAQSkZJRg=="
           (response_with abc_content)); reflexivity.
Defined.

Lemma process_image_no_reply_witness :
  let run := ImageRecognition.process_image unit (fun _ => "Describe the landmark.")
               "https://example.test/multimodal" one_image
               (fun _ _ _ => Raise (RequestException "timed out"))
               "image_example/example10.jpg" tt in
  outcome run = Raise (request_failed "timed out")
  /\ posts (trace run)
     = [Post "https://example.test/multimodal" "/9j/4AAQSkZJRg=="
          "Describe the landmark."]
  /\ (In (Print [PStr "Extracting description..."]) (trace run) -> False).
Proof.
  apply (process_image_no_reply unit (fun _ => "Describe the landmark.")
           "https://example.test/multimodal" one_image
           (fun _ _ _ => Raise (RequestException "timed out"))
           "image_example/example10.jpg" tt "/9j/4AAQSkZJRg=="
           (RequestException "timed out")); reflexivity.
Defined.

(** ** image_recognition_workflow.py: extract_description, further *)

Lemma description_body_strip (r : dict) (d : string) :
  description_body r = Ok d -> exists s, d = strip s.
Proof.
  unfold description_body. intro H.
  apply and_then_ok in H. destruct H as (choices & _ & H).
  destruct (negb (truthy choices)); [discriminate H|].
  apply and_then_ok in H. destruct H as (first & _ & H).
  apply and_then_ok in H. destruct H as (message & _ & H).
  apply and_then_ok in H. destruct H as (content & _ & H).
  destruct (negb (truthy content)); [discriminate H|].
  destruct content as [ | | |s|items| ]; try discriminate H.
  - injection H as <-. exists s. reflexivity.
  - apply and_then_ok in H. destruct H as (joined & _ & H).
    injection H as <-. exists joined. reflexivity.
Qed.

(** X20.  A description that is returned has no white space at its
    start nor at its end. *)
Theorem extract_description_trimmed (r : dict) (description : string) :
  outcome (extract_description r) = Ok description -> trimmed description.
Proof.
  rewrite extract_description_outcome.
  destruct (description_body r) as [d|e] eqn:E; intro H; [|discriminate H].
  injection H as <-. destruct (description_body_strip _ _ E) as (s & ->).
  apply strip_trimmed.
Qed.

Lemma extract_description_trimmed_witness :
  trimmed "Fisher Fine Arts Library.".
Proof.
  apply (extract_description_trimmed
           (response_with (JStr "  Fisher Fine Arts Library. "))).
  reflexivity.
Defined.

(** X21.  A string content made of white space only is not taken for an
    empty one: extraction succeeds with the empty description. *)
Theorem extract_description_blank (r : dict) (s : string) :
  content_at r (JStr s) -> s <> "" -> blank s = true ->
  extract_description r = ([], Ok "").
Proof.
  intros Hc Hs Hb. apply extract_description_ok.
  rewrite (description_body_content _ _ Hc), (truthy_text _ Hs). cbn [negb].
  unfold strip. rewrite (blank_lstrip _ Hb). reflexivity.
Qed.

Lemma extract_description_blank_witness :
  extract_description (response_with (JStr "   ")) = ([], Ok "").
Proof.
  apply (extract_description_blank _ "   " (response_with_content _)).
  - discriminate.
  - reflexivity.
Defined.

Lemma all_str_not_text (l : list json) (v : json) :
  In v l -> (forall t, v <> JStr t) -> all_str l = Raise TypeError.
Proof.
  induction l as [|x l IH]; intros Hin Hv; [contradiction|].
  destruct Hin as [->|Hin].
  - destruct v; try reflexivity. exfalso. exact (Hv _ eq_refl).
  - simpl. destruct x; try reflexivity. rewrite (IH Hin Hv). reflexivity.
Qed.

Lemma text_contents_member (items : list json) (d : dict) (v : json) :
  In (JObj d) items -> lookup "text" d = Some v -> In v (text_contents items).
Proof.
  induction items as [|x items IH]; intros Hin Hv; [contradiction|].
  destruct Hin as [->|Hin].
  - simpl. rewrite Hv. left. reflexivity.
  - simpl. destruct x as [ | | |s|l|d']; try exact (IH Hin Hv).
    + right. exact (IH Hin Hv).
    + destruct (lookup "text" d'); [right|]; exact (IH Hin Hv).
Qed.

(** X22.  An object fragment whose text member is not a string is not
    passed over: it makes extraction fail with TypeError, after the raw
    response was printed. *)
Theorem extract_description_text_not_string (r : dict) (items : list json)
    (d : dict) (v : json) :
  content_at r (JArr items) ->
  In (JObj d) items -> lookup "text" d = Some v -> (forall t, v <> JStr t) ->
  extract_description r = ([raw_dump r], Raise (unexpected TypeError)).
Proof.
  intros Hc Hin Hv Hn.
  rewrite (extract_description_raise r TypeError); [reflexivity|].
  rewrite (description_body_content _ _ Hc).
  rewrite nonempty_truthy by (intros ->; contradiction). cbn [negb].
  unfold join.
  rewrite (all_str_not_text _ v (text_contents_member _ _ _ Hin Hv) Hn).
  reflexivity.
Qed.

Lemma extract_description_text_not_string_witness :
  extract_description
    (response_with (JArr [JStr "College Hall"; JObj [("text", JInt 1871)]]))
  = ([raw_dump (response_with
                  (JArr [JStr "College Hall"; JObj [("text", JInt 1871)]]))],
     Raise (unexpected TypeError)).
Proof.
  apply (extract_description_text_not_string _ _ [("text", JInt 1871)] (JInt 1871)
           (response_with_content _)).
  - right. left. reflexivity.
  - reflexivity.
  - discriminate.
Defined.

(** X23.  Only the content of the first choice's message decides the
    description: two responses with the same content there give the same
    description or the same exception, whatever further choices and other
    members they hold. *)
Theorem extract_description_reads_first_choice (r r' : dict) (c : json) :
  content_at r c -> content_at r' c ->
  outcome (extract_description r) = outcome (extract_description r').
Proof.
  intros H H'. rewrite !extract_description_outcome.
  rewrite (description_body_content _ _ H), (description_body_content _ _ H').
  reflexivity.
Qed.

Lemma extract_description_reads_first_choice_witness :
  outcome (extract_description (response_with abc_content))
  = outcome (extract_description
               [("output",
                 JObj [("choices",
                        JArr [JObj [("message", JObj [("content", abc_content)])];
                              JObj [("message",
                                     JObj [("content", JStr "Another.")])]])])]).
Proof.
  apply (extract_description_reads_first_choice _ _ abc_content
           (response_with_content _)).
  unfold content_at. do 4 eexists. repeat split; reflexivity.
Defined.

(** ** travel_planner.py: the conversion loop *)

Lemma convert_app_raise (before after : list json) (e : exc) :
  convert before = Raise e -> convert (before ++ after) = Raise e.
Proof.
  induction before as [|x before IH]; simpl; intro H.
  - discriminate H.
  - destruct (destination_of x) as [d|e']; [|exact H]. simpl in H |- *.
    destruct (convert before) as [ds|e'']; [discriminate H|].
    simpl in H. injection H as <-. rewrite (IH eq_refl). reflexivity.
Qed.

Lemma convert_app_ok (before after : list json)
    (destinations : list TravelDestination) :
  convert before = Ok destinations ->
  convert (before ++ after)
  = (more <~ convert after ;; Ok (destinations ++ more)%list).
Proof.
  revert destinations.
  induction before as [|x before IH]; simpl; intros destinations H.
  - injection H as <-. destruct (convert after); reflexivity.
  - destruct (destination_of x) as [d|e]; [|discriminate H]. simpl in H |- *.
    destruct (convert before) as [ds|e]; [|discriminate H].
    simpl in H. injection H as <-.
    rewrite (IH ds eq_refl). destruct (convert after); reflexivity.
Qed.

(** X24.  The elements are converted in order and the first one that
    fails decides the exception: the elements after it are not looked at.
    When a first part converts, the whole converts to its destinations
    followed by those of the rest. *)
Theorem convert_in_order (before after : list json) :
  (forall e, convert before = Raise e -> convert (before ++ after) = Raise e)
  /\
  (forall destinations,
     convert before = Ok destinations ->
     convert (before ++ after)
     = (more <~ convert after ;; Ok (destinations ++ more)%list))
  /\
  (forall destinations data e,
     convert before = Ok destinations -> destination_of data = Raise e ->
     convert (before ++ data :: after) = Raise e).
Proof.
  split; [|split].
  - intros e H. exact (convert_app_raise before after e H).
  - intros destinations H. exact (convert_app_ok before after destinations H).
  - intros destinations data e H Hd.
    rewrite (convert_app_ok before (data :: after) destinations H).
    simpl. rewrite Hd. reflexivity.
Qed.

Lemma convert_in_order_witness :
  convert ([sample_element] ++ [JObj [("name", JStr "College Hall")]; JInt 7])
  = Raise (KeyError (JStr "description")).
Proof.
  apply (proj2 (proj2 (convert_in_order [sample_element] [JInt 7]))
           [sample_destination] (JObj [("name", JStr "College Hall")])
           (KeyError (JStr "description"))); reflexivity.
Defined.
